(** * device_check.py: audit and backup of a fleet of network devices

    A shallow embedding of [device_check.py] and the properties of its
    per-device session ([process_target]), its NTP probe
    ([check_ntp_server]), its backup routines ([get_backup_file_path],
    [create_backup]) and its driver ([main]).

    The script is almost entirely made of calls into the outside world
    (netmiko sessions, sockets, the file system, textfsm, the clock).  Each
    such call is modelled as a primitive that records an event in a trace
    and whose outcome (a value or a raised exception) is read from a
    [World].  The file system is kept as real state so that the effect of
    the backup writes can be observed. *)

From Stdlib Require Import Ascii String List ZArith Lia.
From stdpp Require Import base strings list gmap pretty.

Local Open Scope string_scope.
Local Open Scope list_scope.

(** ** Python values used by the script *)

Module Py.

(** The subclasses of [Exception] that can reach the script, by family:
    [OSError] covers the socket and file errors ([socket.timeout],
    [socket.gaierror], [FileExistsError], [PermissionError], ...). *)
Inductive exception : Type :=
| KeyError (key : string)
| IndexError
| TypeError
| NameError (name : string)
| OSError (what : string)
| NetmikoException (what : string)
| TextFSMError (what : string).

(** What can be raised: an [Exception], or the [SystemExit] of [sys.exit],
    which is not one. *)
Inductive exn : Type :=
| Exception (e : exception)
| SystemExit (code : Z).
Coercion Exception : exception >-> exn.

Inductive result (A : Type) : Type :=
| Ok (a : A)
| Raise (e : exn).
Arguments Ok {A} a.
Arguments Raise {A} e.

(** The outcome of a call into a library: it returns or raises an
    [Exception]. *)
Inductive answer (A : Type) : Type :=
| Reply (a : A)
| Fails (e : exception).
Arguments Reply {A} a.
Arguments Fails {A} e.

(** [s.startswith(pre)] *)
Fixpoint startswith (pre s : string) : bool :=
  match pre with
  | EmptyString => true
  | String a pre' =>
      match s with
      | EmptyString => false
      | String b s' => Ascii.eqb a b && startswith pre' s'
      end
  end.

(** [needle in hay] on [str]. *)
Fixpoint contains (needle hay : string) : bool :=
  startswith needle hay
  || match hay with
     | EmptyString => false
     | String _ rest => contains needle rest
     end.

(** [s[:-1]]: every character but the last; the empty string stays empty. *)
Fixpoint drop_last (s : string) : string :=
  match s with
  | EmptyString => EmptyString
  | String c rest =>
      match rest with
      | EmptyString => EmptyString
      | String _ _ => String c (drop_last rest)
      end
  end.

(** [s * n] *)
Fixpoint str_mul (s : string) (n : nat) : string :=
  match n with
  | O => ""
  | S n' => s +:+ str_mul s n'
  end.

(** [sep.join(parts)] *)
Fixpoint str_join (sep : string) (parts : list string) : string :=
  match parts with
  | [] => ""
  | [p] => p
  | p :: rest => p +:+ sep +:+ str_join sep rest
  end.

(** The characters of a [str], as iterating over it yields them. *)
Fixpoint chars (s : string) : list string :=
  match s with
  | EmptyString => []
  | String c rest => String c "" :: chars rest
  end.

Fixpoint endswith_sep (s : string) : bool :=
  match s with
  | EmptyString => false
  | String c rest =>
      match rest with
      | EmptyString => Ascii.eqb c "/"
      | String _ _ => endswith_sep rest
      end
  end.

(** One step of [posixpath.join]: an absolute component discards what came
    before it; otherwise a separator is inserted unless the path so far is
    empty or already ends with one. *)
Definition join_step (path b : string) : string :=
  if startswith "/" b then b
  else if (String.eqb path "" || endswith_sep path) then path +:+ b
  else path +:+ "/" +:+ b.

(** [os.path.join(a, *p)] *)
Definition os_path_join (a : string) (p : list string) : string :=
  fold_left join_step p a.

(** [datetime.datetime]: the fields [strftime] reads. *)
Record datetime : Type := {
  year : N; month : N; day : N;
  hour : N; minute : N; second : N }.

Definition digit (n : N) : ascii := ascii_of_N (48 + n mod 10).

Definition zero_pad2 (n : N) : string :=
  String (digit (n / 10)) (String (digit n) "").

Definition zero_pad4 (n : N) : string :=
  String (digit (n / 1000)) (String (digit (n / 100)) (zero_pad2 n)).

(** The conversion of one [%]-directive; the script uses these six. *)
Definition directive (now : datetime) (c : ascii) : string :=
  if Ascii.eqb c "Y" then zero_pad4 (year now)
  else if Ascii.eqb c "m" then zero_pad2 (month now)
  else if Ascii.eqb c "d" then zero_pad2 (day now)
  else if Ascii.eqb c "H" then zero_pad2 (hour now)
  else if Ascii.eqb c "M" then zero_pad2 (minute now)
  else if Ascii.eqb c "S" then zero_pad2 (second now)
  else String "%" (String c "").

(** [now.strftime(fmt)] *)
Fixpoint strftime (now : datetime) (fmt : string) : string :=
  match fmt with
  | EmptyString => ""
  | String c rest =>
      if Ascii.eqb c "%" then
        match rest with
        | EmptyString => "%"
        | String d rest' => directive now d +:+ strftime now rest'
        end
      else String c (strftime now rest)
  end.

(** A value of a textfsm row: a plain [Value] is a string, a [Value List]
    a list of strings. *)
Inductive fsm_value : Type :=
| VStr (s : string)
| VList (l : list string).

End Py.
Export Py.

(** ** The outside world *)

(** A row of the inventory, as [csv.DictReader] yields it. *)
Abbreviation device := (gmap string string).

(** The two template handles the module opens when it is imported. *)
Inductive template : Type := SHOW_CDP_NEI | SHOW_VERS.

(** What one device answers to the calls made on its connection. *)
Record Behaviour : Type := {
  on_connect : string -> string -> string -> string -> option exception;
  on_find_prompt : answer string;
  on_enable : option exception;
  on_send_command : string -> answer string;
  on_send_config_set : list string -> option exception;
  on_disconnect : option exception }.

Inductive fs_op : Type :=
| Makedirs (path : string)
| Mkdir (path : string)
| OpenW (path : string)
| WriteTo (path : string).

(** Outcomes of every external call; [None] in an [option exception] means
    that the call went through. *)
Record World : Type := {
  device_at : string -> Behaviour;
  clock : datetime;
  socket_fault : option exception;
  settimeout_fault : option exception;
  sendto_fault : string -> option exception;
  recvfrom_outcome : string -> answer (list Z);
  fs_fault : fs_op -> option exception;
  textfsm_template : template -> option exception;
  textfsm_parse : template -> string -> answer (list (list fsm_value));
  csv_rows : string -> answer (list device) }.

(** What the script does to the outside world, in the order it does it. *)
Inductive event : Type :=
| EPrint (line : string)
| ELogging (filename : string)
| ENow
| ESocket
| ESetTimeout (seconds : Z)
| ESendto (host : string) (port : Z) (payload : list Z)
| ERecvfrom (bufsize : Z)
| EConnect (host : string)
| EFindPrompt (host : string)
| EEnable (host : string)
| ESendCommand (host : string) (command : string)
| ESendConfigSet (host : string) (commands : list string)
| EDisconnect (host : string)
| EMakedirs (path : string)
| EMkdir (path : string)
| EOpenW (path : string)
| EWrite (path : string) (text : string)
| ETextFSM (t : template)
| EPoolOpen (width : nat)
| ESubmit (d : device) (timestamp : string) (config_commands : list string)
| EGet (index : nat)
| EPoolTerminate.

(** The state the script runs in: the trace, the file system (the
    directories and the text files, by path as the script spells it) and
    the two module globals that [main] assigns. *)
Record State : Type := {
  trace : list event;
  dirs : gset string;
  files : gmap string string;
  DEVICE_FILE_PATH : string;
  BACKUP_DIR_PATH : string }.

Definition initial (ds : gset string) (fs : gmap string string) : State :=
  {| trace := []; dirs := ds; files := fs;
     DEVICE_FILE_PATH := "devices.txt"; BACKUP_DIR_PATH := "backups" |}.

Definition NTP_SERVERS : list string :=
  ["37.193.156.169"; "78.36.18.184"; "89.221.207.113"; "192.36.143.130"].

(** ** Computations: state, trace and exceptions *)

Definition M (A : Type) : Type := World -> State -> result A * State.

Definition ret {A} (a : A) : M A := fun _ s => (Ok a, s).
Definition raise {A} (e : exn) : M A := fun _ s => (Raise e, s).
Definition bind {A B} (m : M A) (k : A -> M B) : M B :=
  fun w s =>
    match m w s with
    | (Ok a, s') => k a w s'
    | (Raise e, s') => (Raise e, s')
    end.

Declare Scope py_scope.
Delimit Scope py_scope with py.
Notation "x <- m ;; k" := (bind m (fun x => k))
  (at level 100, m at next level, right associativity) : py_scope.
Notation "m ;; k" := (bind m (fun _ => k))
  (at level 100, right associativity) : py_scope.
Local Open Scope py_scope.

Definition add_event (e : event) (s : State) : State :=
  {| trace := trace s ++ [e]; dirs := dirs s; files := files s;
     DEVICE_FILE_PATH := DEVICE_FILE_PATH s; BACKUP_DIR_PATH := BACKUP_DIR_PATH s |}.

Definition with_dir (path : string) (s : State) : State :=
  {| trace := trace s; dirs := {[path]} ∪ dirs s; files := files s;
     DEVICE_FILE_PATH := DEVICE_FILE_PATH s; BACKUP_DIR_PATH := BACKUP_DIR_PATH s |}.

Definition with_file (path text : string) (s : State) : State :=
  {| trace := trace s; dirs := dirs s; files := <[path := text]> (files s);
     DEVICE_FILE_PATH := DEVICE_FILE_PATH s; BACKUP_DIR_PATH := BACKUP_DIR_PATH s |}.

Definition with_DEVICE_FILE_PATH (v : string) (s : State) : State :=
  {| trace := trace s; dirs := dirs s; files := files s;
     DEVICE_FILE_PATH := v; BACKUP_DIR_PATH := BACKUP_DIR_PATH s |}.

Definition with_BACKUP_DIR_PATH (v : string) (s : State) : State :=
  {| trace := trace s; dirs := dirs s; files := files s;
     DEVICE_FILE_PATH := DEVICE_FILE_PATH s; BACKUP_DIR_PATH := v |}.

Definition modify (f : State -> State) : M unit := fun _ s => (Ok tt, f s).

Definition emit (e : event) : M unit := modify (add_event e).

(** Run [m] and keep its outcome, raised exception included, as a value. *)
Definition capture {A} (m : M A) : M (result A) :=
  fun w s => let '(r, s') := m w s in (Ok r, s').

(** Run [m], then [cleanup] whichever way [m] ended, and end as [m] did. *)
Definition finally {A} (m : M A) (cleanup : State -> State) : M A :=
  fun w s => let '(r, s') := m w s in (r, cleanup s').

Definition ask {A} (f : World -> A) : M A := fun w s => (Ok (f w), s).
Definition read {A} (f : State -> A) : M A := fun _ s => (Ok (f s), s).

(** An external call that yields nothing: it goes through or raises. *)
Definition attempt (f : World -> option exception) : M unit :=
  fun w s => match f w with None => (Ok tt, s) | Some e => (Raise e, s) end.

(** An external call that yields a value or raises. *)
Definition outcome {A} (f : World -> answer A) : M A :=
  fun w s => match f w with Reply a => (Ok a, s) | Fails e => (Raise e, s) end.

(** The classes an [except] clause of the script can name: the names bound
    in the module (its imports, globals and functions) or built in.  Of the
    names the script uses in [except] clauses only [Exception] is bound; it
    matches every exception but [SystemExit]. *)
Definition lookup_class (name : string) : option (exn -> bool) :=
  if String.eqb name "Exception"
  then Some (fun e => match e with Exception _ => true | SystemExit _ => false end)
  else None.

(** [try: body / except <name>: handler].  The clause is evaluated only when
    the body raises; a name that is not bound raises [NameError] there, in
    place of the exception in flight. *)
Definition try_except {A} (body : M A) (name : string) (handler : M A) : M A :=
  fun w s =>
    match body w s with
    | (Ok a, s') => (Ok a, s')
    | (Raise e, s') =>
        match lookup_class name with
        | None => (Raise (NameError name), s')
        | Some matches => if matches e then handler w s' else (Raise e, s')
        end
    end.

(** [for x in xs: acc = body(acc, x)], for a loop that updates one local. *)
Fixpoint for_fold {A B} (xs : list A) (acc : B) (body : B -> A -> M B) : M B :=
  match xs with
  | [] => ret acc
  | x :: rest => acc' <- body acc x ;; for_fold rest acc' body
  end.

(** [print(a, b, ...)]: the arguments joined by one space. *)
Definition print (args : list string) : M unit := emit (EPrint (str_join " " args)).

(** [d[key]] on a dict *)
Definition getitem (d : device) (key : string) : M string :=
  match d !! key with
  | Some v => ret v
  | None => raise (KeyError key)
  end.

(** [l[i]] on a list *)
Definition list_getitem {A} (l : list A) (i : nat) : M A :=
  match l !! i with
  | Some v => ret v
  | None => raise IndexError
  end.

(** ** The file system *)

Definition path_exists (path : string) : M bool :=
  read (fun s => bool_decide (path ∈ dirs s) || bool_decide (is_Some (files s !! path))).

Definition add_dir (path : string) : M unit := modify (with_dir path).

Definition set_file (path text : string) : M unit := modify (with_file path text).

(** [os.mkdir(path)]: raises [FileExistsError] when the path is there. *)
Definition os_mkdir (path : string) : M unit :=
  emit (EMkdir path) ;;
  attempt (fun w => fs_fault w (Mkdir path)) ;;
  there <- path_exists path ;;
  if there then raise (OSError "FileExistsError") else add_dir path.

(** [os.makedirs(path, exist_ok=True)] *)
Definition os_makedirs_exist_ok (path : string) : M unit :=
  emit (EMakedirs path) ;;
  attempt (fun w => fs_fault w (Makedirs path)) ;;
  add_dir path.

(** [with open(path, 'w') as file: file.write(text)]: opening creates or
    truncates the file. *)
Definition open_w_write (path text : string) : M unit :=
  emit (EOpenW path) ;;
  attempt (fun w => fs_fault w (OpenW path)) ;;
  set_file path "" ;;
  emit (EWrite path text) ;;
  attempt (fun w => fs_fault w (WriteTo path)) ;;
  set_file path text.

(** ** The script *)

Module DeviceCheck.

(** A netmiko connection object, known by the host it is open to. *)
Record connection : Type := { conn_host : string }.

(** [bytes(s, encoding='utf-8')] on characters below U+0080, one byte each. *)
Fixpoint utf8_bytes (s : string) : list Z :=
  match s with
  | EmptyString => []
  | String c rest => Z.of_nat (nat_of_ascii c) :: utf8_bytes rest
  end.

Definition dashes : string := str_mul "-*-" 10.

Definition enable_logging : M unit := emit (ELogging "test.log").

(** [bytes('\x1b' + 47 * '\0', encoding='utf-8')] *)
Definition ntp_request : list Z :=
  utf8_bytes (String (ascii_of_nat 27) "" +:+ str_mul (String zero "") 47).

Definition check_ntp_server (host : string) : M bool :=
  let port := 123%Z in
  let buf := 1024%Z in
  let msg := ntp_request in
  returned <-
    try_except
      (emit ESocket ;;
       attempt socket_fault ;;
       emit (ESetTimeout 1) ;;
       attempt settimeout_fault ;;
       emit (ESendto host port msg) ;;
       attempt (fun w => sendto_fault w host) ;;
       emit (ERecvfrom buf) ;;
       _ <- outcome (fun w => recvfrom_outcome w host) ;;
       ret None)
      "Exception"
      (print ["Error:"; host; "is not a corrent NTP server"] ;;
       ret (Some false)) ;;
  match returned with
  | Some b => ret b
  | None => ret true
  end.

Definition get_devices_from_file (device_file : string) : M (list device) :=
  rows <- outcome (fun w => csv_rows w device_file) ;;
  device_list <- for_fold rows [] (fun device_list row => ret (device_list ++ [row])) ;;
  print ["Got the device list from inventory"] ;;
  print [dashes] ;;
  print [] ;;
  ret device_list.

Definition get_current_date_and_time : M string :=
  emit ENow ;;
  now <- ask clock ;;
  print ["Got a timestamp"] ;;
  print [dashes] ;;
  print [] ;;
  ret (strftime now "%Y_%m_%d-%H_%M_%S").

Definition connect_to_device (d : device) : M connection :=
  host <- getitem d "ip" ;;
  username <- getitem d "username" ;;
  password <- getitem d "password" ;;
  device_type <- getitem d "device_type" ;;
  secret <- getitem d "secret" ;;
  emit (EConnect host) ;;
  attempt (fun w => on_connect (device_at w host) username password device_type secret) ;;
  ip <- getitem d "ip" ;;
  print ["Opened connection to " +:+ ip] ;;
  print [dashes] ;;
  print [] ;;
  ret {| conn_host := host |}.

Definition find_prompt (c : connection) : M string :=
  emit (EFindPrompt (conn_host c)) ;;
  outcome (fun w => on_find_prompt (device_at w (conn_host c))).

Definition enable (c : connection) : M unit :=
  emit (EEnable (conn_host c)) ;;
  attempt (fun w => on_enable (device_at w (conn_host c))).

Definition send_command (c : connection) (command : string) : M string :=
  emit (ESendCommand (conn_host c) command) ;;
  outcome (fun w => on_send_command (device_at w (conn_host c)) command).

Definition send_config_set (c : connection) (commands : list string) : M unit :=
  emit (ESendConfigSet (conn_host c) commands) ;;
  attempt (fun w => on_send_config_set (device_at w (conn_host c)) commands).

Definition disconnect_from_device (c : connection) (hostname : string) : M unit :=
  emit (EDisconnect (conn_host c)) ;;
  attempt (fun w => on_disconnect (device_at w (conn_host c))) ;;
  print ["Connection to device " +:+ hostname +:+ " terminated"].

(** ['{}-{}.txt'.format(hostname, timestamp)] *)
Definition backup_file_name (hostname timestamp : string) : string :=
  hostname +:+ "-" +:+ timestamp +:+ ".txt".

Definition get_backup_file_path (hostname timestamp : string) : M string :=
  root <- read BACKUP_DIR_PATH ;;
  there <- path_exists (os_path_join root [hostname]) ;;
  (if negb there then os_mkdir (os_path_join root [hostname]) else ret tt) ;;
  let backup_file_path :=
    os_path_join root [hostname; backup_file_name hostname timestamp] in
  print ["Backup file path will be " +:+ backup_file_path] ;;
  print [dashes] ;;
  print [] ;;
  ret backup_file_path.

Definition create_backup (c : connection) (backup_file_path hostname : string) : M bool :=
  try_except
    (enable c ;;
     output <- send_command c "sh run" ;;
     open_w_write backup_file_path output ;;
     print ["Backup of " +:+ hostname +:+ " is complete!"] ;;
     print [dashes] ;;
     print [] ;;
     ret true)
    "Error"
    (print ["Error! Unable to backup device " +:+ hostname] ;;
     ret false).

(** [textfsm.TextFSM(handle)] reads the template from the open handle. *)
Definition TextFSM (t : template) : M template :=
  emit (ETextFSM t) ;;
  attempt (fun w => textfsm_template w t) ;;
  ret t.

Definition ParseText (t : template) (text : string) : M (list (list fsm_value)) :=
  outcome (fun w => textfsm_parse w t text).

(** [",".join(v)]: a string is joined character by character. *)
Definition comma_join (v : fsm_value) : string :=
  match v with
  | VList l => str_join "," l
  | VStr s => str_join "," (chars s)
  end.

(** [str + v] needs [v] to be a [str]. *)
Definition as_str (v : fsm_value) : M string :=
  match v with
  | VStr s => ret s
  | VList _ => raise TypeError
  end.

Definition cdp_status (sh_cdn_nei : string) : string :=
  if contains "CDP is not enabled" sh_cdn_nei then "CDP is OFF" else "CDP is ON".

Definition edition (sh_vers : string) : string :=
  if contains "NPE" sh_vers then "NPE" else "PE".

Definition ntp_sync_status (sh_ntp_sta : string) : string :=
  if contains "sh_ntp_sta" sh_ntp_sta then "Clock not in Sync" else "Clock in Sync".

(** The line [process_target] prints for a device. *)
Definition audit_line (device_hostname hardware version pe_or_npe cdp_enabled : string)
    (num_cdp_neighbors : nat) (ntp_status : string) : string :=
  device_hostname +:+ "|" +:+ hardware +:+ "|" +:+ version +:+ "|" +:+ pe_or_npe
  +:+ "|" +:+ cdp_enabled +:+ "," +:+ pretty num_cdp_neighbors +:+ " peers|" +:+ ntp_status.

Definition process_target (d : device) (timestamp : string)
    (config_commands : list string) : M unit :=
  connection <- connect_to_device d ;;

  prompt <- find_prompt connection ;;
  let device_hostname := drop_last prompt in

  backup_file_path <- get_backup_file_path device_hostname timestamp ;;
  backup_result <- create_backup connection backup_file_path device_hostname ;;

  sh_cdn_nei <- send_command connection "show cdp neighbors" ;;
  let cdp_enabled := cdp_status sh_cdn_nei in
  re_table <- TextFSM SHOW_CDP_NEI ;;
  neighbors <- ParseText re_table sh_cdn_nei ;;
  let num_cdp_neighbors := length neighbors in

  sh_vers <- send_command connection "show version" ;;
  let pe_or_npe := edition sh_vers in
  re_table <- TextFSM SHOW_VERS ;;
  parsed <- ParseText re_table sh_vers ;;
  version <- list_getitem parsed 0 ;;

  send_config_set connection config_commands ;;

  sh_ntp_sta <- send_command connection "show ntp status" ;;
  let ntp_status := ntp_sync_status sh_ntp_sta in

  hardware <- list_getitem version 6 ;;
  software <- list_getitem version 0 ;;
  software <- as_str software ;;
  print [audit_line device_hostname (comma_join hardware) software pe_or_npe
           cdp_enabled num_cdp_neighbors ntp_status] ;;
  disconnect_from_device connection device_hostname.

(** *** The worker pool

    The workers of [mp.Pool] are separate processes, forked from [main]
    with the module globals as [main] has set them: all they share while
    they run is the outside world.  A task is run here when it is
    submitted, to its end; an exception it raises does not leave the worker
    but is kept in the task's [AsyncResult], and [get] raises it again in
    the caller.  What [main] sees through [get], the subject of the
    theorems on the pool, does not depend on how the tasks interleave.
    Which of the tasks still running are cut short when the pool is
    terminated does, and is not part of the model. *)

Definition apply_async (d : device) (timestamp : string)
    (config_commands : list string) : M (result unit) :=
  emit (ESubmit d timestamp config_commands) ;;
  capture (process_target d timestamp config_commands).

Definition get (index : nat) (process : result unit) : M unit :=
  emit (EGet index) ;;
  match process with
  | Ok v => ret v
  | Raise e => raise e
  end.

(** [with mp.Pool(width) as pool: body]: leaving the block, also by an
    exception, terminates the pool. *)
Definition with_pool {A} (width : nat) (body : M A) : M A :=
  emit (EPoolOpen width) ;;
  finally body (add_event EPoolTerminate).

Definition set_DEVICE_FILE_PATH (v : string) : M unit := modify (with_DEVICE_FILE_PATH v).

Definition set_BACKUP_DIR_PATH (v : string) : M unit := modify (with_BACKUP_DIR_PATH v).

(** The loop of [main] that builds the commands pushed to every device. *)
Definition add_ntp_server (config_commands : list string) (ntp_server : string)
    : M (list string) :=
  reachable <- check_ntp_server ntp_server ;;
  ret (if reachable then config_commands ++ ["ntp server " +:+ ntp_server]
       else config_commands).

(** The two loops over the pool: submit every device, then wait for every
    result, both in the order of the inventory. *)
Fixpoint get_all (index : nat) (processes : list (result unit)) : M unit :=
  match processes with
  | [] => ret tt
  | process :: rest => get index process ;; get_all (S index) rest
  end.

Definition run_pool (device_list : list device) (timestamp : string)
    (config_commands : list string) : M unit :=
  with_pool 4
    (processes <-
       for_fold device_list []
         (fun processes d =>
            process <- apply_async d timestamp config_commands ;;
            ret (processes ++ [process])) ;;
     get_all 0 processes).

Definition main (args : list string) : M unit :=
  (if Nat.ltb 2 (length args) then
     print ["Usage: device_check.py [device_file [backup_dir]]"] ;;
     raise (SystemExit 1)
   else
     match args with
     | [device_file] => set_DEVICE_FILE_PATH device_file
     | [device_file; backup_dir] =>
         set_DEVICE_FILE_PATH device_file ;; set_BACKUP_DIR_PATH backup_dir
     | _ => ret tt
     end) ;;
  enable_logging ;;
  root <- read BACKUP_DIR_PATH ;;
  os_makedirs_exist_ok root ;;
  config_commands <-
    for_fold NTP_SERVERS ["clock timezone GMT 0 0"] add_ntp_server ;;
  timestamp <- get_current_date_and_time ;;
  device_file <- read DEVICE_FILE_PATH ;;
  device_list <- get_devices_from_file device_file ;;
  run_pool device_list timestamp config_commands.

End DeviceCheck.
Export DeviceCheck.

(** ** Reading a trace *)

(** The calls made on a device's connection. *)
Definition is_device_event (e : event) : bool :=
  match e with
  | EConnect _ | EFindPrompt _ | EEnable _ | ESendCommand _ _
  | ESendConfigSet _ _ | EDisconnect _ => true
  | _ => false
  end.

Definition device_events (tr : list event) : list event :=
  List.filter is_device_event tr.

(** The calls of a whole session, in the order [process_target] makes them. *)
Definition session_script (host : string) (config_commands : list string) : list event :=
  [EConnect host; EFindPrompt host; EEnable host;
   ESendCommand host "sh run";
   ESendCommand host "show cdp neighbors";
   ESendCommand host "show version";
   ESendConfigSet host config_commands;
   ESendCommand host "show ntp status";
   EDisconnect host].

(** The order claimed for the session: the four show commands, then the
    push.  (The script spells the first command [sh run].) *)
Definition claimed_command_order (host : string) (config_commands : list string)
    : list event :=
  [ESendCommand host "sh run";
   ESendCommand host "show cdp neighbors";
   ESendCommand host "show version";
   ESendCommand host "show ntp status";
   ESendConfigSet host config_commands].

Definition is_command_event (e : event) : bool :=
  match e with
  | ESendCommand _ _ | ESendConfigSet _ _ => true
  | _ => false
  end.

Definition command_events (tr : list event) : list event :=
  List.filter is_command_event tr.

(** The commands of a whole session, in the order the script issues them. *)
Definition issued_command_order (host : string) (config_commands : list string)
    : list event :=
  [ESendCommand host "sh run";
   ESendCommand host "show cdp neighbors";
   ESendCommand host "show version";
   ESendConfigSet host config_commands;
   ESendCommand host "show ntp status"].

(** The calls of the NTP probe. *)
Definition is_probe_event (e : event) : bool :=
  match e with
  | ESocket | ESetTimeout _ | ESendto _ _ _ | ERecvfrom _ => true
  | _ => false
  end.

(** The calls of one probe that goes through. *)
Definition probe_script (host : string) : list event :=
  [ESocket; ESetTimeout 1; ESendto host 123 ntp_request; ERecvfrom 1024].

(** The calls by which a device session is started or carried out. *)
Definition is_session_event (e : event) : bool :=
  match e with
  | ESubmit _ _ _ => true
  | _ => is_device_event e
  end.

Definition is_now_event (e : event) : bool :=
  match e with ENow => true | _ => false end.

Definition is_submit_event (e : event) : bool :=
  match e with ESubmit _ _ _ => true | _ => false end.

(** What a worker does while it processes a device. *)
Definition is_worker_event (e : event) : bool :=
  match e with
  | EPrint _ | EMkdir _ | EOpenW _ | EWrite _ _ | ETextFSM _ => true
  | _ => is_device_event e
  end.

(** What [main] does before it starts the pool: anything but the start or
    the calls of a session. *)
Definition is_early_event (e : event) : bool := negb (is_session_event e).

(** What happens once the pool is started: no probe and no reading of the
    clock. *)
Definition is_late_event (e : event) : bool :=
  negb (is_probe_event e) && negb (is_now_event e).

Definition timestamp_format : string := "%Y_%m_%d-%H_%M_%S".

(** A push, if [e] is one, pushes [config_commands]. *)
Definition pushes (config_commands : list string) (e : event) : Prop :=
  match e with
  | ESendConfigSet _ commands => commands = config_commands
  | _ => True
  end.

(** The outcome of the task of a device: that of [process_target] on it,
    from the state in which the worker finds the world. *)
Definition task_of (w : World) (timestamp : string) (config_commands : list string)
    (d : device) (process : result unit) : Prop :=
  exists s, process = (process_target d timestamp config_commands w s).1.

Definition is_get_event (e : event) : bool :=
  match e with EGet _ => true | _ => false end.

Definition is_sendto_event (e : event) : bool :=
  match e with ESendto _ _ _ => true | _ => false end.

Definition is_socket_event (e : event) : bool :=
  match e with ESocket => true | _ => false end.

(** The start of a probe or a reading of the clock. *)
Definition is_setup_event (e : event) : bool :=
  is_socket_event e || is_now_event e.

Definition count (p : event -> bool) (tr : list event) : nat :=
  length (List.filter p tr).

(** Whether the probe of [host] goes through: none of its four socket
    calls raises. *)
Definition probe_ok (w : World) (host : string) : bool :=
  match socket_fault w, settimeout_fault w, sendto_fault w host, recvfrom_outcome w host with
  | None, None, None, Reply _ => true
  | _, _, _, _ => false
  end.

(** The commands pushed to every device, given which servers answer. *)
Definition baseline (reachable : string -> bool) : list string :=
  "clock timezone GMT 0 0"
  :: map (fun addr => "ntp server " +:+ addr) (List.filter reachable NTP_SERVERS).

(** The first exception among the outcomes of the tasks, if any. *)
Fixpoint first_raised (processes : list (result unit)) : result unit :=
  match processes with
  | [] => Ok tt
  | Ok _ :: rest => first_raised rest
  | Raise e :: _ => Raise e
  end.

(** How many results [main] gets before it stops: all of them, or those up
    to and including the first that raises. *)
Fixpoint gets_made (processes : list (result unit)) : nat :=
  match processes with
  | [] => 0
  | Ok _ :: rest => S (gets_made rest)
  | Raise _ :: _ => 1
  end.

(** The header of an NTP packet: the mode is in the low three bits of the
    first byte, the version in the next three; 3 is client, 4 is server. *)
Definition ntp_mode (packet : list Z) : Z :=
  match packet with
  | [] => 0
  | b :: _ => Z.land b 7
  end.

Definition ntp_version (packet : list Z) : Z :=
  match packet with
  | [] => 0
  | b :: _ => Z.land (Z.shiftr b 3) 7
  end.

(** A reply is malformed when it is not an NTP server packet: shorter than
    the 48-byte header, or not in server mode. *)
Definition malformed_reply (reply : list Z) : bool :=
  negb (Nat.leb 48 (length reply) && Z.eqb (ntp_mode reply) 4).

(** [needle] occurs in [hay]. *)
Definition is_substring (needle hay : string) : Prop :=
  exists before after, hay = before +:+ needle +:+ after.

(** A name that [os.path.join] takes as one component of a path: not empty,
    and with no separator at either end. *)
Definition plain_component (name : string) : bool :=
  negb (String.eqb name "") && negb (startswith "/" name) && negb (endswith_sep name).

(** A directory path to which [os.path.join] appends a separator. *)
Definition plain_root (root : string) : bool :=
  negb (String.eqb root "") && negb (endswith_sep root).

Definition is_digit (c : ascii) : bool :=
  (48 <=? N_of_ascii c)%N && (N_of_ascii c <=? 57)%N.

(** The shape [YYYY_MM_DD-HH_MM_SS]. *)
Definition timestamp_shape (s : string) : bool :=
  match list_ascii_of_string s with
  | [y1; y2; y3; y4; u1; m1; m2; u2; d1; d2; h; h1; h2; u3; n1; n2; u4; s1; s2] =>
      forallb is_digit [y1; y2; y3; y4; m1; m2; d1; d2; h1; h2; n1; n2; s1; s2]
      && forallb (Ascii.eqb "_") [u1; u2; u3; u4]
      && Ascii.eqb h "-"
  | _ => false
  end.

(** The number a string of decimal digits denotes. *)
Definition digit_value (c : ascii) : N := N_of_ascii c - 48.

Definition read_decimal (s : string) : N :=
  fold_left (fun acc c => 10 * acc + digit_value c)%N (list_ascii_of_string s) 0%N.

(** The fields of a [datetime] are within the ranges of the class. *)
Definition valid_datetime (t : datetime) : Prop :=
  (1 <= year t <= 9999 /\ 1 <= month t <= 12 /\ 1 <= day t <= 31 /\
   hour t <= 23 /\ minute t <= 59 /\ second t <= 59)%N.

(** ** A laboratory: devices and worlds to run the script on *)

Module Lab.

Definition mk_device (ip : string) : device :=
  list_to_map [("ip", ip); ("username", "admin"); ("password", "cisco");
               ("device_type", "cisco_ios"); ("secret", "class")].

Definition ios_answers (command : string) : answer string :=
  if String.eqb command "sh run" then Reply "hostname r1"
  else if String.eqb command "show cdp neighbors" then
    Reply "Device ID        Local Intrfce     Holdtme    Capability  Platform  Port ID"
  else if String.eqb command "show version" then
    Reply "Cisco IOS Software, C2900 Software (C2900-UNIVERSALK9-M), Version 15.2(4)M6"
  else if String.eqb command "show ntp status" then
    Reply "Clock is unsynchronized, stratum 16, no reference clock"
  else Fails (NetmikoException "ReadTimeout").

(** A device on which every call goes through. *)
Definition router (prompt : string) : Behaviour := {|
  on_connect := fun _ _ _ _ => None;
  on_find_prompt := Reply prompt;
  on_enable := None;
  on_send_command := ios_answers;
  on_send_config_set := fun _ => None;
  on_disconnect := None |}.

(** A device that cannot be reached. *)
Definition unreachable : Behaviour := {|
  on_connect := fun _ _ _ _ => Some (NetmikoException "NetmikoTimeoutException");
  on_find_prompt := Fails (NetmikoException "ReadTimeout");
  on_enable := Some (NetmikoException "ReadTimeout");
  on_send_command := fun _ => Fails (NetmikoException "ReadTimeout");
  on_send_config_set := fun _ => Some (NetmikoException "ReadTimeout");
  on_disconnect := None |}.

(** A device that accepts the connection and then stops answering. *)
Definition mute : Behaviour := {|
  on_connect := fun _ _ _ _ => None;
  on_find_prompt := Fails (NetmikoException "ReadTimeout");
  on_enable := Some (NetmikoException "ReadTimeout");
  on_send_command := fun _ => Fails (NetmikoException "ReadTimeout");
  on_send_config_set := fun _ => Some (NetmikoException "ReadTimeout");
  on_disconnect := None |}.

Definition version_row : list fsm_value :=
  [VStr "15.2(4)M6"; VStr "15.0(1r)M16"; VStr "r1"; VStr "1 week, 2 days";
   VStr "power-on"; VStr "flash0:c2900-universalk9-mz.SPA.152-4.M6.bin";
   VList ["CISCO2911/K9"]; VList ["FTX1636AL0Y"]; VStr "0x2102"].

Definition parses_version (t : template) (text : string)
    : answer (list (list fsm_value)) :=
  match t with
  | SHOW_CDP_NEI => Reply []
  | SHOW_VERS => Reply [version_row]
  end.

Definition parses_nothing (t : template) (text : string)
    : answer (list (list fsm_value)) := Reply [].

Definition fleet (host : string) : Behaviour :=
  if String.eqb host "10.0.0.2" then router "r2#"
  else if String.eqb host "10.0.0.3" then router "r3#"
  else if String.eqb host "10.0.0.4" then router "r4#"
  else if String.eqb host "10.0.0.5" then router "r5#"
  else router "r1#".

Definition fleet_one_down (host : string) : Behaviour :=
  if String.eqb host "10.0.0.2" then unreachable else fleet host.

Definition inventory : list device :=
  map mk_device ["10.0.0.1"; "10.0.0.2"; "10.0.0.3"; "10.0.0.4"; "10.0.0.5"].

Definition no_fault (op : fs_op) : option exception := None.

Definition read_only_backups (op : fs_op) : option exception :=
  match op with
  | OpenW _ => Some (OSError "PermissionError")
  | _ => None
  end.

Definition no_new_directory (op : fs_op) : option exception :=
  match op with
  | Mkdir _ => Some (OSError "PermissionError")
  | _ => None
  end.

(** A 48-byte server reply: leap 0, version 3, mode 4. *)
Definition server_reply : list Z := 28%Z :: repeat 0%Z 47.

Definition answers_all (host : string) : answer (list Z) := Reply server_reply.

Definition answers_none (host : string) : answer (list Z) :=
  Fails (OSError "timed out").

(** Two of the four servers answer. *)
Definition answers_some (host : string) : answer (list Z) :=
  if String.eqb host "78.36.18.184" || String.eqb host "192.36.143.130"
  then Reply server_reply else Fails (OSError "timed out").

(** Every server answers with an empty datagram. *)
Definition answers_empty (host : string) : answer (list Z) := Reply [].

Definition world (devices : string -> Behaviour)
    (parse : template -> string -> answer (list (list fsm_value)))
    (fault : fs_op -> option exception)
    (reply : string -> answer (list Z)) : World := {|
  device_at := devices;
  clock := {| year := 2020; month := 4; day := 27; hour := 9; minute := 5; second := 0 |}%N;
  socket_fault := None;
  settimeout_fault := None;
  sendto_fault := fun _ => None;
  recvfrom_outcome := reply;
  fs_fault := fault;
  textfsm_template := fun _ => None;
  textfsm_parse := parse;
  csv_rows := fun _ => Reply inventory |}.

Definition calm : World := world fleet parses_version no_fault answers_all.

(** A file system in which only the backup root exists. *)
Definition fresh : State := initial {["backups"]} ∅.

Definition timestamp : string := "2020_04_27-09_05_00".

End Lab.

(** ** Further readings of a run *)

(** The keys [connect_to_device] reads from a row of the inventory, in the
    order in which it reads them. *)
Definition connection_keys : list string :=
  ["ip"; "username"; "password"; "device_type"; "secret"].

Definition first_missing_key (d : device) : option string :=
  List.find (fun key => match d !! key with Some _ => false | None => true end)
    connection_keys.

Definition is_print_event (e : event) : bool :=
  match e with EPrint _ => true | _ => false end.

Definition is_mkdir_event (e : event) : bool :=
  match e with EMkdir _ => true | _ => false end.

Definition is_open_event (e : event) : bool :=
  match e with EOpenW _ => true | _ => false end.

Definition is_pool_event (e : event) : bool :=
  match e with EPoolOpen _ | EPoolTerminate => true | _ => false end.

(** The module globals are what they were. *)
Definition same_globals (s s' : State) : Prop :=
  DEVICE_FILE_PATH s' = DEVICE_FILE_PATH s /\ BACKUP_DIR_PATH s' = BACKUP_DIR_PATH s.

(** The line the probe prints for a server it gives up on. *)
Definition probe_error_line (host : string) : string :=
  "Error: " +:+ host +:+ " is not a corrent NTP server".

Definition usage_line : string :=
  "Usage: device_check.py [device_file [backup_dir]]".

(** The inventory file and the backup root that [main] uses, given its
    arguments and the globals it starts with. *)
Definition chosen_device_file (args : list string) (s : State) : string :=
  match args with
  | device_file :: _ => device_file
  | [] => DEVICE_FILE_PATH s
  end.

Definition chosen_backup_dir (args : list string) (s : State) : string :=
  match args with
  | [_; backup_dir] => backup_dir
  | _ => BACKUP_DIR_PATH s
  end.

(** More worlds to run the script on. *)
Module Cases.

(** The template finds a version row with two fields only. *)
Definition parses_short_version (t : template) (text : string)
    : answer (list (list fsm_value)) :=
  match t with
  | SHOW_CDP_NEI => Reply []
  | SHOW_VERS => Reply [[VStr "15.2(4)M6"; VStr "15.0(1r)M16"]]
  end.

Definition short_version : World :=
  Lab.world Lab.fleet parses_short_version Lab.no_fault Lab.answers_all.

(** A row of the inventory without the [secret] column. *)
Definition no_secret : device :=
  list_to_map [("ip", "10.0.0.1"); ("username", "admin"); ("password", "cisco");
               ("device_type", "cisco_ios")].

(** The backup root cannot be made. *)
Definition no_backup_root (op : fs_op) : option exception :=
  match op with
  | Makedirs _ => Some (OSError "PermissionError")
  | _ => None
  end.

End Cases.

(** * Properties *)

(** ** Reasoning about runs

    [post m w s Q] holds when running [m] in world [w] from state [s] ends
    with a result and a state that satisfy [Q]. *)

Definition post {A} (m : M A) (w : World) (s : State)
    (Q : result A -> State -> Prop) : Prop :=
  Q (m w s).1 (m w s).2.

Section Rules.
Context {A B : Type} (w : World) (s : State).

Lemma post_ret (a : A) (Q : result A -> State -> Prop) :
  Q (Ok a) s -> post (ret a) w s Q.
Proof. exact id. Qed.

Lemma post_raise (e : exn) (Q : result A -> State -> Prop) :
  Q (Raise e) s -> post (raise e) w s Q.
Proof. exact id. Qed.

Lemma post_bind (m : M A) (k : A -> M B) (Q : result B -> State -> Prop) :
  post m w s (fun r s' => match r with
                          | Ok a => post (k a) w s' Q
                          | Raise e => Q (Raise e) s'
                          end) ->
  post (bind m k) w s Q.
Proof. unfold post, bind. destruct (m w s) as [[a|e] s']; simpl; auto. Qed.

Lemma post_modify (f : State -> State) (Q : result unit -> State -> Prop) :
  Q (Ok tt) (f s) -> post (modify f) w s Q.
Proof. exact id. Qed.

Lemma post_emit (e : event) (Q : result unit -> State -> Prop) :
  Q (Ok tt) (add_event e s) -> post (emit e) w s Q.
Proof. exact id. Qed.

Lemma post_attempt (f : World -> option exception) (Q : result unit -> State -> Prop) :
  (f w = None -> Q (Ok tt) s) ->
  (forall e, f w = Some e -> Q (Raise e) s) ->
  post (attempt f) w s Q.
Proof. unfold post, attempt. destruct (f w); simpl; auto. Qed.

Lemma post_outcome (f : World -> answer A) (Q : result A -> State -> Prop) :
  (forall a, f w = Reply a -> Q (Ok a) s) ->
  (forall e, f w = Fails e -> Q (Raise e) s) ->
  post (outcome f) w s Q.
Proof. unfold post, outcome. destruct (f w); simpl; auto. Qed.

Lemma post_ask (f : World -> A) (Q : result A -> State -> Prop) :
  Q (Ok (f w)) s -> post (ask f) w s Q.
Proof. exact id. Qed.

Lemma post_read (f : State -> A) (Q : result A -> State -> Prop) :
  Q (Ok (f s)) s -> post (read f) w s Q.
Proof. exact id. Qed.

Lemma post_capture (m : M A) (Q : result (result A) -> State -> Prop) :
  post m w s (fun r s' => Q (Ok r) s') -> post (capture m) w s Q.
Proof. unfold post, capture. destruct (m w s); auto. Qed.

Lemma post_finally (m : M A) (cleanup : State -> State)
    (Q : result A -> State -> Prop) :
  post m w s (fun r s' => Q r (cleanup s')) -> post (finally m cleanup) w s Q.
Proof. unfold post, finally. destruct (m w s); auto. Qed.

(** An [except] clause that names an unbound class turns whatever the body
    raises into a [NameError]. *)
Lemma post_try_unbound (body handler : M A) (name : string)
    (Q : result A -> State -> Prop) :
  lookup_class name = None ->
  post body w s (fun r s' => match r with
                             | Ok a => Q (Ok a) s'
                             | Raise _ => Q (Raise (NameError name)) s'
                             end) ->
  post (try_except body name handler) w s Q.
Proof.
  unfold post, try_except. intros ->.
  destruct (body w s) as [[a|e] s']; simpl; auto.
Qed.

Lemma post_try_bound (body handler : M A) (name : string) (matches : exn -> bool)
    (Q : result A -> State -> Prop) :
  lookup_class name = Some matches ->
  post body w s (fun r s' => match r with
                             | Ok a => Q (Ok a) s'
                             | Raise e => if matches e then post handler w s' Q
                                          else Q (Raise e) s'
                             end) ->
  post (try_except body name handler) w s Q.
Proof.
  unfold post, try_except. intros ->.
  destruct (body w s) as [[a|e] s']; simpl; auto.
  destruct (matches e); auto.
Qed.

Lemma post_weaken (m : M A) (Q Q' : result A -> State -> Prop) :
  post m w s Q -> (forall r s', Q r s' -> Q' r s') -> post m w s Q'.
Proof. unfold post. auto. Qed.
End Rules.

Ltac head_of t := lazymatch t with ?f _ => head_of f | _ => t end.

(** One step of a run.  Loops are left to their own lemmas. *)
Ltac run_step :=
  lazymatch goal with
  | |- post (bind _ _) _ _ _ => apply post_bind
  | |- post (ret _) _ _ _ => apply post_ret
  | |- post (raise _) _ _ _ => apply post_raise
  | |- post (emit _) _ _ _ => apply post_emit
  | |- post (modify _) _ _ _ => apply post_modify
  | |- post (attempt _) _ _ _ => apply post_attempt; [intros ? | intros ? ?]
  | |- post (outcome _) _ _ _ => apply post_outcome; intros ? ?
  | |- post (ask _) _ _ _ => apply post_ask
  | |- post (read _) _ _ _ => apply post_read
  | |- post (capture _) _ _ _ => apply post_capture
  | |- post (finally _ _) _ _ _ => apply post_finally
  | |- post (try_except _ "Error" _) _ _ _ => apply post_try_unbound; [reflexivity|]
  | |- post (try_except _ "Exception" _) _ _ _ => eapply post_try_bound; [reflexivity|]
  | |- post (for_fold _ _ _) _ _ _ => fail
  | |- post (get_all _ _) _ _ _ => fail
  | |- post (run_pool _ _ _) _ _ _ => fail
  | |- post (match ?x with _ => _ end) _ _ _ => destruct x eqn:?
  | |- post ?m _ _ _ => let h := head_of m in unfold h
  end;
  cbv beta iota;
  cbn beta iota delta
    [add_event with_dir with_file with_DEVICE_FILE_PATH with_BACKUP_DIR_PATH
     trace dirs files DEVICE_FILE_PATH BACKUP_DIR_PATH conn_host] in *.

Ltac run := repeat run_step.

(** ** Strings *)

#[local] Arguments String.append : simpl nomatch.

Lemma append_assoc (a b c : string) : (a +:+ b) +:+ c = a +:+ (b +:+ c).
Proof. induction a as [|x a IH]; simpl; [reflexivity | now rewrite IH]. Qed.

Lemma startswith_spec (p s : string) :
  startswith p s = true <-> exists rest, s = p +:+ rest.
Proof.
  revert s. induction p as [|x p IH]; intros s; simpl.
  - split; [intros _; now exists s | reflexivity].
  - destruct s as [|y s].
    + split; [discriminate | intros [rest Hrest]; discriminate].
    + rewrite andb_true_iff, Ascii.eqb_eq, IH. split.
      * intros [-> [rest ->]]. now exists rest.
      * intros [rest Hrest]. injection Hrest as -> ->. split; [reflexivity | now exists rest].
Qed.

(** [contains] decides the occurrence of a substring. *)
Lemma contains_spec (needle hay : string) :
  contains needle hay = true <-> is_substring needle hay.
Proof.
  unfold is_substring. induction hay as [|c hay IH].
  - cbn [contains]. rewrite orb_false_r, startswith_spec. split.
    + intros [rest Hrest]. now exists "", rest.
    + intros [[|b before] [after Hsub]]; [now exists after | discriminate].
  - cbn [contains]. rewrite orb_true_iff, startswith_spec, IH. split.
    + intros [[rest Hrest] | (before & after & Hsub)].
      * now exists "", rest.
      * exists (String c before), after. simpl. now rewrite Hsub.
    + intros [[|b before] [after Hsub]].
      * left. now exists after.
      * right. exists before, after. simpl in Hsub. congruence.
Qed.

Lemma drop_last_snoc (s : string) (c : ascii) : drop_last (s +:+ String c "") = s.
Proof.
  induction s as [|x s IH]; [reflexivity|].
  cbn [append drop_last]. rewrite IH.
  destruct s; reflexivity.
Qed.

Lemma endswith_sep_append (a b : string) :
  b <> "" -> endswith_sep (a +:+ b) = endswith_sep b.
Proof.
  intros Hb. induction a as [|x a IH]; [reflexivity|].
  cbn [append endswith_sep]. rewrite IH.
  destruct (a +:+ b) eqn:E; [|reflexivity].
  destruct a; simpl in E; congruence.
Qed.

Lemma startswith_sep_append (a b : string) :
  a <> "" -> startswith "/" (a +:+ b) = startswith "/" a.
Proof. destruct a as [|x a]; [congruence | reflexivity]. Qed.

Lemma plain_component_spec (name : string) :
  plain_component name = true ->
  name <> "" /\ startswith "/" name = false /\ endswith_sep name = false.
Proof.
  unfold plain_component. rewrite !andb_true_iff, !negb_true_iff.
  intros [[Hne Hs] He]. repeat split; try assumption.
  intros ->. discriminate.
Qed.

Lemma plain_root_spec (root : string) :
  plain_root root = true -> root <> "" /\ endswith_sep root = false.
Proof.
  unfold plain_root. rewrite andb_true_iff, !negb_true_iff.
  intros [Hne He]. split; [intros ->; discriminate | assumption].
Qed.

Lemma eqb_empty_false (a : string) : a <> "" -> String.eqb a "" = false.
Proof. destruct a; [congruence | reflexivity]. Qed.

(** Joining a plain root and a plain name inserts one separator. *)
Lemma join_step_plain (path name : string) :
  path <> "" -> endswith_sep path = false -> startswith "/" name = false ->
  join_step path name = path +:+ "/" +:+ name.
Proof.
  intros Hp He Hs. unfold join_step. rewrite Hs, He, eqb_empty_false by assumption.
  reflexivity.
Qed.

(** The path of a backup, spelled out. *)
Lemma backup_path_plain (root hostname timestamp : string) :
  plain_root root = true -> plain_component hostname = true ->
  os_path_join root [hostname; backup_file_name hostname timestamp]
  = root +:+ "/" +:+ hostname +:+ "/" +:+ hostname +:+ "-" +:+ timestamp +:+ ".txt".
Proof.
  intros [Hr Hre]%plain_root_spec (Hh & Hhs & Hhe)%plain_component_spec.
  unfold os_path_join, backup_file_name. cbn [fold_left].
  rewrite (join_step_plain root hostname) by assumption.
  rewrite join_step_plain.
  - now rewrite !append_assoc.
  - destruct root; [congruence | discriminate].
  - rewrite <- append_assoc, endswith_sep_append by assumption. assumption.
  - rewrite startswith_sep_append by assumption. assumption.
Qed.

(** Backups taken at different times go to different files, whatever the
    root and the hostname are. *)
Lemma join_step_inj (path a b : string) :
  startswith "/" a = startswith "/" b ->
  join_step path a = join_step path b -> a = b.
Proof.
  unfold join_step. intros <-.
  destruct (startswith "/" a); [easy|].
  destruct (_ || _); intros H.
  - now apply String.app_inj in H.
  - now apply String.app_inj, String.app_inj in H.
Qed.

Lemma length_append (a b : string) :
  String.length (a +:+ b) = String.length a + String.length b.
Proof. induction a as [|x a IH]; simpl; [reflexivity | now rewrite IH]. Qed.

Lemma append_inj_r (a b tail : string) : a +:+ tail = b +:+ tail -> a = b.
Proof.
  intros H.
  assert (L : String.length a = String.length b).
  { apply (f_equal String.length) in H. rewrite !length_append in H. lia. }
  revert b L H. induction a as [|x a IH]; intros [|y b] L H; try discriminate L.
  - reflexivity.
  - simpl in L, H. injection H as -> H. f_equal. apply IH; [lia | assumption].
Qed.

Lemma backup_path_inj (root hostname t1 t2 : string) :
  os_path_join root [hostname; backup_file_name hostname t1]
  = os_path_join root [hostname; backup_file_name hostname t2] ->
  t1 = t2.
Proof.
  unfold os_path_join, backup_file_name. cbn [fold_left]. intros H.
  apply join_step_inj in H.
  - apply String.app_inj, String.app_inj in H. now apply append_inj_r in H.
  - now destruct hostname.
Qed.

#[local] Arguments String.append : simpl never.

(** ** The device session *)

Ltac empty_trace s H :=
  destruct s as [? ? ? ? ?]; cbn [trace] in H; subst.

Ltac list_events :=
  cbn beta iota delta
    [app device_events command_events List.filter is_device_event is_command_event
     session_script issued_command_order In BACKUP_DIR_PATH] in *.

(** Two answers of the world to the same call are the same answer. *)
Ltac same_answer :=
  try match goal with
      | H1 : ?call = Reply _, H2 : ?call = Reply _ |- _ =>
          rewrite H1 in H2; injection H2 as ?; subst
      end.

Ltac find_event := cbn [In]; repeat first [left; reflexivity | right].

(** The calls made on a device are always an initial part of the same
    sequence, which is complete when the session returns; and when the
    session raises, a disconnect has been attempted only if it is the
    disconnect itself that raised. *)
Lemma session_calls w d ts cfg s h :
  trace s = [] -> d !! "ip" = Some h ->
  post (process_target d ts cfg) w s (fun r s' =>
     device_events (trace s') `prefix_of` session_script h cfg
     /\ (r = Ok tt -> device_events (trace s') = session_script h cfg)
     /\ (forall e, r = Raise e -> In (EDisconnect h) (trace s') ->
         exists e', e = Exception e' /\ on_disconnect (device_at w h) = Some e')).
Proof.
  intros Ht Hh. empty_trace s Ht.
  run; rewrite ?Hh in *; simplify_eq; list_events.
  all: split; [eexists; reflexivity | split; [intros; simplify_eq; try reflexivity|] ].
  all: intros ? [= <-] Hin; try (exfalso; intuition discriminate).
  all: eauto.
Qed.

Lemma session_commands w d ts cfg s h :
  trace s = [] -> d !! "ip" = Some h ->
  post (process_target d ts cfg) w s (fun r s' =>
     command_events (trace s') `prefix_of` issued_command_order h cfg
     /\ (r = Ok tt -> command_events (trace s') = issued_command_order h cfg)).
Proof.
  intros Ht Hh. empty_trace s Ht.
  run; rewrite ?Hh in *; simplify_eq; list_events.
  all: split; [eexists; reflexivity | intros; simplify_eq; try reflexivity].
Qed.

Lemma session_without_address w d ts cfg s :
  d !! "ip" = None ->
  process_target d ts cfg w s = (Raise (KeyError "ip"), s).
Proof.
  intros Hip. unfold process_target, connect_to_device, bind, getitem.
  now rewrite Hip.
Qed.

(** C3, as the code has it.  A disconnect is attempted when the session
    returns, and only after every other call on the device has been made;
    when the session ends with an exception, a disconnect has been
    attempted only if that exception is the one the disconnect raised.  So
    a failure of any step between connect and disconnect leaves the session
    open. *)
Theorem disconnect_only_at_the_end w d ts cfg s h :
  trace s = [] -> d !! "ip" = Some h ->
  let r := (process_target d ts cfg w s).1 in
  let tr := trace (process_target d ts cfg w s).2 in
  (r = Ok tt -> In (EDisconnect h) tr)
  /\ (In (EDisconnect h) tr -> device_events tr = session_script h cfg)
  /\ (forall e, r = Raise e -> In (EDisconnect h) tr ->
      exists e', e = Exception e' /\ on_disconnect (device_at w h) = Some e').
Proof.
  intros Ht Hh r tr.
  destruct (session_calls w d ts cfg s h Ht Hh) as (Hpre & Hok & Hraise).
  fold r tr in Hpre, Hok, Hraise.
  assert (Hdev : In (EDisconnect h) tr -> device_events tr = session_script h cfg).
  { intros Hin.
    assert (Hin' : In (EDisconnect h) (device_events tr)).
    { unfold device_events. apply filter_In. now split. }
    destruct Hpre as [rest Hrest].
    destruct (decide (rest = [])) as [->|Hne]; [now rewrite app_nil_r in Hrest|].
    exfalso.
    assert (Hlen : length (device_events tr) < 9).
    { apply (f_equal length) in Hrest. rewrite length_app in Hrest.
      cbn [session_script length] in Hrest. destruct rest; [congruence|]. simpl in Hrest. lia. }
    assert (Hfront : device_events tr = firstn (length (device_events tr)) (session_script h cfg)).
    { rewrite Hrest, firstn_app, Nat.sub_diag, firstn_all. simpl. now rewrite app_nil_r. }
    remember (length (device_events tr)) as n eqn:Hn. clear Hn.
    rewrite Hfront in Hin'. clear -Hin' Hlen.
    do 9 (destruct n as [|n]; [simpl in Hin'; intuition discriminate|]).
    lia. }
  repeat split; [|exact Hdev|exact Hraise].
  intros Hr. specialize (Hok Hr).
  assert (Hin : In (EDisconnect h) (device_events tr)) by (rewrite Hok; find_event).
  unfold device_events in Hin. now apply filter_In in Hin.
Qed.

Lemma disconnect_only_at_the_end_witness :
  let w := Lab.calm in
  let d := Lab.mk_device "10.0.0.1" in
  let r := (process_target d Lab.timestamp (baseline (probe_ok w)) w Lab.fresh).1 in
  let tr := trace (process_target d Lab.timestamp (baseline (probe_ok w)) w Lab.fresh).2 in
  (trace Lab.fresh = [] /\ d !! "ip" = Some "10.0.0.1" /\ r = Ok tt)
  /\ In (EDisconnect "10.0.0.1") tr.
Proof.
  split; [repeat split|].
  apply (proj1 (disconnect_only_at_the_end Lab.calm (Lab.mk_device "10.0.0.1")
                  Lab.timestamp (baseline (probe_ok Lab.calm)) Lab.fresh "10.0.0.1"
                  eq_refl eq_refl)).
  reflexivity.
Defined.

(** C3, as stated, fails: on a device that accepts the connection and then
    stops answering, the session is opened and no disconnect is attempted. *)
Lemma session_left_open :
  let w := Lab.world (fun _ => Lab.mute) Lab.parses_version Lab.no_fault Lab.answers_all in
  let run := process_target (Lab.mk_device "10.0.0.1") Lab.timestamp [] w Lab.fresh in
  run.1 = Raise (NetmikoException "ReadTimeout")
  /\ In (EPrint "Opened connection to 10.0.0.1") (trace run.2)
  /\ ~ In (EDisconnect "10.0.0.1") (trace run.2).
Proof.
  vm_compute. repeat split; [tauto|]. intuition discriminate.
Qed.

(** C4, as the code has it.  The commands of a session are issued in one
    fixed order: [sh run], [show cdp neighbors], [show version], then the
    push of the configuration commands, then [show ntp status].  A session
    that fails stops somewhere in this sequence; a session that returns has
    issued all of it. *)
Theorem commands_in_fixed_order w d ts cfg s h :
  trace s = [] -> d !! "ip" = Some h ->
  let r := (process_target d ts cfg w s).1 in
  let tr := trace (process_target d ts cfg w s).2 in
  command_events tr `prefix_of` issued_command_order h cfg
  /\ (r = Ok tt -> command_events tr = issued_command_order h cfg).
Proof.
  intros Ht Hh r tr. exact (session_commands w d ts cfg s h Ht Hh).
Qed.

Lemma commands_in_fixed_order_witness :
  let w := Lab.calm in
  let d := Lab.mk_device "10.0.0.1" in
  let cfg := baseline (probe_ok w) in
  let r := (process_target d Lab.timestamp cfg w Lab.fresh).1 in
  let tr := trace (process_target d Lab.timestamp cfg w Lab.fresh).2 in
  trace Lab.fresh = [] /\ d !! "ip" = Some "10.0.0.1" /\
  command_events tr `prefix_of` issued_command_order "10.0.0.1" cfg /\
  (r = Ok tt -> command_events tr = issued_command_order "10.0.0.1" cfg).
Proof.
  split; [reflexivity|]. split; [reflexivity|].
  apply (commands_in_fixed_order Lab.calm (Lab.mk_device "10.0.0.1") Lab.timestamp
           (baseline (probe_ok Lab.calm)) Lab.fresh "10.0.0.1"); reflexivity.
Defined.

(** C4, as stated, fails: in a session in which every call goes through,
    the configuration is pushed before [show ntp status] is issued, not
    after the four show commands. *)
Lemma push_precedes_show_ntp_status :
  let w := Lab.calm in
  let cfg := baseline (probe_ok w) in
  let run := process_target (Lab.mk_device "10.0.0.1") Lab.timestamp cfg w Lab.fresh in
  run.1 = Ok tt
  /\ command_events (trace run.2)
     = [ESendCommand "10.0.0.1" "sh run";
        ESendCommand "10.0.0.1" "show cdp neighbors";
        ESendCommand "10.0.0.1" "show version";
        ESendConfigSet "10.0.0.1" cfg;
        ESendCommand "10.0.0.1" "show ntp status"]
  /\ command_events (trace run.2) <> claimed_command_order "10.0.0.1" cfg.
Proof.
  vm_compute. repeat split. discriminate.
Qed.

(** C5, as the code has it.  When the extraction of [show version] is
    reached and yields no row, indexing the result raises [IndexError]: the
    session ends there, after [show version] and before the push, the audit
    line and the disconnect.  What it has printed by then are the lines of
    the connection, of the backup path and of the backup: no audit line. *)
Theorem no_version_row_aborts w d ts cfg s h sh_vers :
  trace s = [] -> d !! "ip" = Some h ->
  on_send_command (device_at w h) "show version" = Reply sh_vers ->
  textfsm_template w SHOW_VERS = None ->
  textfsm_parse w SHOW_VERS sh_vers = Reply [] ->
  let r := (process_target d ts cfg w s).1 in
  let tr := trace (process_target d ts cfg w s).2 in
  In (ETextFSM SHOW_VERS) tr ->
  r = Raise IndexError
  /\ device_events tr
     = [EConnect h; EFindPrompt h; EEnable h; ESendCommand h "sh run";
        ESendCommand h "show cdp neighbors"; ESendCommand h "show version"]
  /\ exists prompt,
       on_find_prompt (device_at w h) = Reply prompt
       /\ List.filter is_print_event tr
          = map EPrint
              ["Opened connection to " +:+ h; dashes; "";
               "Backup file path will be "
               +:+ os_path_join (BACKUP_DIR_PATH s)
                     [drop_last prompt; backup_file_name (drop_last prompt) ts];
               dashes; "";
               "Backup of " +:+ drop_last prompt +:+ " is complete!"; dashes; ""].
Proof.
  intros Ht Hh Hcmd Htpl Hparse. empty_trace s Ht.
  cut (post (process_target d ts cfg) w
         {| trace := []; dirs := dirs0; files := files0;
            DEVICE_FILE_PATH := DEVICE_FILE_PATH0; BACKUP_DIR_PATH := BACKUP_DIR_PATH0 |}
         (fun r s' => In (ETextFSM SHOW_VERS) (trace s') ->
            r = Raise IndexError
            /\ device_events (trace s')
               = [EConnect h; EFindPrompt h; EEnable h; ESendCommand h "sh run";
                  ESendCommand h "show cdp neighbors"; ESendCommand h "show version"]
            /\ exists prompt,
                 on_find_prompt (device_at w h) = Reply prompt
                 /\ List.filter is_print_event (trace s')
                    = map EPrint
                        ["Opened connection to " +:+ h; dashes; "";
                         "Backup file path will be "
                         +:+ os_path_join BACKUP_DIR_PATH0
                               [drop_last prompt; backup_file_name (drop_last prompt) ts];
                         dashes; "";
                         "Backup of " +:+ drop_last prompt +:+ " is complete!";
                         dashes; ""])).
  { intros H. exact H. }
  run; rewrite ?Hh in *; simplify_eq.
  all: remember (List.filter is_print_event) as printed eqn:Hprinted.
  all: list_events.
  all: try (intros Hin; exfalso; intuition discriminate).
  all: same_answer; same_answer.
  all: try discriminate.
  all: try (exfalso; congruence).
  all: intros _; split; [reflexivity|]; split; [reflexivity|].
  all: try subst printed; eexists; split; [eassumption | reflexivity].
Qed.

Lemma no_version_row_aborts_witness :
  let w := Lab.world Lab.fleet Lab.parses_nothing Lab.no_fault Lab.answers_all in
  let d := Lab.mk_device "10.0.0.1" in
  let sh_vers :=
    "Cisco IOS Software, C2900 Software (C2900-UNIVERSALK9-M), Version 15.2(4)M6" in
  let r := (process_target d Lab.timestamp [] w Lab.fresh).1 in
  let tr := trace (process_target d Lab.timestamp [] w Lab.fresh).2 in
  (trace Lab.fresh = [] /\ d !! "ip" = Some "10.0.0.1"
   /\ on_send_command (device_at w "10.0.0.1") "show version" = Reply sh_vers
   /\ textfsm_template w SHOW_VERS = None
   /\ textfsm_parse w SHOW_VERS sh_vers = Reply []
   /\ In (ETextFSM SHOW_VERS) tr)
  /\ r = Raise IndexError.
Proof.
  split.
  - repeat split; try reflexivity. vm_compute. tauto.
  - apply (no_version_row_aborts
             (Lab.world Lab.fleet Lab.parses_nothing Lab.no_fault Lab.answers_all)
             (Lab.mk_device "10.0.0.1") Lab.timestamp [] Lab.fresh "10.0.0.1"
             "Cisco IOS Software, C2900 Software (C2900-UNIVERSALK9-M), Version 15.2(4)M6");
      try reflexivity.
    vm_compute. tauto.
Defined.

(** C5, as stated, fails: when the template finds no row in the output of
    [show version], the session of that device ends with [IndexError]. *)
Lemma no_version_row_raises :
  let w := Lab.world Lab.fleet Lab.parses_nothing Lab.no_fault Lab.answers_all in
  let run := process_target (Lab.mk_device "10.0.0.1") Lab.timestamp [] w Lab.fresh in
  (forall text, textfsm_parse w SHOW_VERS text = Reply [])
  /\ run.1 = Raise IndexError.
Proof. split; [intros text|]; reflexivity. Qed.

(** C10.  The hostname of a session is the prompt without its last
    character: the directory and the file of the backup are named after it
    and, in a session that returns, the line printed for the device begins
    with it.  That line is the hostname, the hardware, the version, the
    edition, the CDP status with the number of neighbours and the NTP
    status, in this order and separated by [|], each read from what the
    device and the templates gave in this session.  The edition on it is
    [NPE] exactly when [NPE] occurs in the output of [show version], and
    [PE] otherwise. *)
Theorem edition_and_hostname w d ts cfg s h prompt sh_vers :
  trace s = [] -> d !! "ip" = Some h ->
  on_find_prompt (device_at w h) = Reply prompt ->
  let r := (process_target d ts cfg w s).1 in
  let tr := trace (process_target d ts cfg w s).2 in
  let hostname := drop_last prompt in
  let path := os_path_join (BACKUP_DIR_PATH s) [hostname; backup_file_name hostname ts] in
  (forall p, In (EMkdir p) tr -> p = os_path_join (BACKUP_DIR_PATH s) [hostname])
  /\ (forall p, In (EOpenW p) tr -> p = path)
  /\ (on_send_command (device_at w h) "show version" = Reply sh_vers -> r = Ok tt ->
      In (EOpenW path) tr
      /\ exists parsed row hardware version sh_cdn_nei neighbors sh_ntp_sta,
           textfsm_parse w SHOW_VERS sh_vers = Reply parsed
           /\ parsed !! 0 = Some row
           /\ row !! 6 = Some hardware /\ row !! 0 = Some (VStr version)
           /\ on_send_command (device_at w h) "show cdp neighbors" = Reply sh_cdn_nei
           /\ textfsm_parse w SHOW_CDP_NEI sh_cdn_nei = Reply neighbors
           /\ on_send_command (device_at w h) "show ntp status" = Reply sh_ntp_sta
           /\ In (EPrint (hostname +:+ "|" +:+ comma_join hardware +:+ "|" +:+ version
                          +:+ "|" +:+ (if contains "NPE" sh_vers then "NPE" else "PE")
                          +:+ "|" +:+ cdp_status sh_cdn_nei +:+ ","
                          +:+ pretty (length neighbors) +:+ " peers|"
                          +:+ ntp_sync_status sh_ntp_sta)) tr)
  /\ (contains "NPE" sh_vers = true <-> is_substring "NPE" sh_vers)
  /\ (edition sh_vers = "NPE" <-> is_substring "NPE" sh_vers)
  /\ (edition sh_vers = "PE" <-> ~ is_substring "NPE" sh_vers)
  /\ (forall name c, prompt = name +:+ String c "" -> hostname = name)
  /\ (prompt = "" -> hostname = "").
Proof.
  intros Ht Hh Hprompt r tr hostname path.
  assert (Hpure :
    (contains "NPE" sh_vers = true <-> is_substring "NPE" sh_vers)
    /\ (edition sh_vers = "NPE" <-> is_substring "NPE" sh_vers)
    /\ (edition sh_vers = "PE" <-> ~ is_substring "NPE" sh_vers)
    /\ (forall name c, prompt = name +:+ String c "" -> hostname = name)
    /\ (prompt = "" -> hostname = "")).
  { split; [apply contains_spec|].
    unfold edition, hostname. rewrite <- contains_spec.
    destruct (contains "NPE" sh_vers); repeat split;
      try discriminate; try congruence; try tauto.
    all: try (intros name c ->; apply drop_last_snoc).
    all: try (intros ->; reflexivity). }
  split; [|split; [|split; [|exact Hpure]]]; clear Hpure.
  all: revert r tr path; cbv zeta; subst hostname; empty_trace s Ht.
  - change (post (process_target d ts cfg) w
              {| trace := []; dirs := dirs0; files := files0;
                 DEVICE_FILE_PATH := DEVICE_FILE_PATH0;
                 BACKUP_DIR_PATH := BACKUP_DIR_PATH0 |}
              (fun _ s' =>
                 forall p, In (EMkdir p) (trace s') ->
                   p = os_path_join BACKUP_DIR_PATH0 [drop_last prompt])).
    run; rewrite ?Hh in *; simplify_eq; list_events.
    all: same_answer.
    all: intros p Hin; intuition congruence.
  - change (post (process_target d ts cfg) w
              {| trace := []; dirs := dirs0; files := files0;
                 DEVICE_FILE_PATH := DEVICE_FILE_PATH0;
                 BACKUP_DIR_PATH := BACKUP_DIR_PATH0 |}
              (fun _ s' =>
                 forall p, In (EOpenW p) (trace s') ->
                   p = os_path_join BACKUP_DIR_PATH0
                         [drop_last prompt; backup_file_name (drop_last prompt) ts])).
    run; rewrite ?Hh in *; simplify_eq; list_events.
    all: same_answer.
    all: intros p Hin; intuition congruence.
  - intros Hvers.
    change (post (process_target d ts cfg) w
              {| trace := []; dirs := dirs0; files := files0;
                 DEVICE_FILE_PATH := DEVICE_FILE_PATH0;
                 BACKUP_DIR_PATH := BACKUP_DIR_PATH0 |}
              (fun r s' => r = Ok tt ->
                 In (EOpenW (os_path_join BACKUP_DIR_PATH0
                               [drop_last prompt; backup_file_name (drop_last prompt) ts]))
                    (trace s')
                 /\ exists parsed row hardware version sh_cdn_nei neighbors sh_ntp_sta,
                      textfsm_parse w SHOW_VERS sh_vers = Reply parsed
                      /\ parsed !! 0 = Some row
                      /\ row !! 6 = Some hardware /\ row !! 0 = Some (VStr version)
                      /\ on_send_command (device_at w h) "show cdp neighbors"
                         = Reply sh_cdn_nei
                      /\ textfsm_parse w SHOW_CDP_NEI sh_cdn_nei = Reply neighbors
                      /\ on_send_command (device_at w h) "show ntp status"
                         = Reply sh_ntp_sta
                      /\ In (EPrint (drop_last prompt +:+ "|" +:+ comma_join hardware
                                     +:+ "|" +:+ version +:+ "|"
                                     +:+ (if contains "NPE" sh_vers then "NPE" else "PE")
                                     +:+ "|" +:+ cdp_status sh_cdn_nei +:+ ","
                                     +:+ pretty (length neighbors) +:+ " peers|"
                                     +:+ ntp_sync_status sh_ntp_sta)) (trace s'))).
    run; rewrite ?Hh in *; simplify_eq; list_events.
    all: intros Hr; try discriminate Hr.
    all: do 2 same_answer.
    all: split; [find_event|].
    all: do 7 eexists.
    all: repeat (split; [eassumption|]).
    all: unfold audit_line, edition; find_event.
Qed.

Lemma edition_and_hostname_witness :
  let w := Lab.calm in
  let d := Lab.mk_device "10.0.0.1" in
  let sh_vers :=
    "Cisco IOS Software, C2900 Software (C2900-UNIVERSALK9-M), Version 15.2(4)M6" in
  let r := (process_target d Lab.timestamp [] w Lab.fresh).1 in
  let tr := trace (process_target d Lab.timestamp [] w Lab.fresh).2 in
  (trace Lab.fresh = [] /\ d !! "ip" = Some "10.0.0.1"
   /\ on_find_prompt (device_at w "10.0.0.1") = Reply "r1#"
   /\ on_send_command (device_at w "10.0.0.1") "show version" = Reply sh_vers
   /\ r = Ok tt)
  /\ In (EOpenW "backups/r1/r1-2020_04_27-09_05_00.txt") tr
  /\ In (EPrint "r1|CISCO2911/K9|15.2(4)M6|PE|CDP is ON,0 peers|Clock in Sync") tr.
Proof.
  split; [repeat split|].
  destruct (proj1 (proj2 (proj2
              (edition_and_hostname Lab.calm (Lab.mk_device "10.0.0.1")
                 Lab.timestamp [] Lab.fresh "10.0.0.1" "r1#"
                 "Cisco IOS Software, C2900 Software (C2900-UNIVERSALK9-M), Version 15.2(4)M6"
                 eq_refl eq_refl eq_refl))) eq_refl eq_refl)
    as [Hopen (parsed & row & hardware & version & sh_cdn_nei & neighbors & sh_ntp_sta
               & Hparsed & Hrow & Hhardware & Hversion & Hcdp & Hneighbors & Hntp & Hline)].
  split; [exact Hopen|].
  injection Hparsed as <-. injection Hrow as <-. injection Hhardware as <-.
  injection Hversion as <-. injection Hcdp as <-. injection Hneighbors as <-.
  injection Hntp as <-. exact Hline.
Defined.

(** What decides the NTP status that is printed: the occurrence of the
    text [sh_ntp_sta] in the output of [show ntp status]. *)
Lemma ntp_sync_status_spec (sh_ntp_sta : string) :
  (ntp_sync_status sh_ntp_sta = "Clock not in Sync" <-> is_substring "sh_ntp_sta" sh_ntp_sta)
  /\ (ntp_sync_status sh_ntp_sta = "Clock in Sync" <-> ~ is_substring "sh_ntp_sta" sh_ntp_sta).
Proof.
  unfold ntp_sync_status. rewrite <- contains_spec.
  destruct (contains "sh_ntp_sta" sh_ntp_sta); split; split;
    try discriminate; try congruence; try tauto.
Qed.

(** C1.  The script looks for the name of its own variable in the output
    of [show ntp status]: a device whose clock is not synchronized, and
    says so, is reported as in sync. *)
Theorem unsynchronized_clock_reported_in_sync :
  let w := Lab.calm in
  let sh_ntp_sta := "Clock is unsynchronized, stratum 16, no reference clock" in
  let run := process_target (Lab.mk_device "10.0.0.1") Lab.timestamp [] w Lab.fresh in
  on_send_command (device_at w "10.0.0.1") "show ntp status" = Reply sh_ntp_sta
  /\ ntp_sync_status sh_ntp_sta = "Clock in Sync"
  /\ run.1 = Ok tt
  /\ In (EPrint "r1|CISCO2911/K9|15.2(4)M6|PE|CDP is ON,0 peers|Clock in Sync")
        (trace run.2).
Proof. vm_compute. repeat split. tauto. Qed.

(** ** The backup *)

(** Whatever is raised inside [create_backup] reaches the clause
    [except Error], and [Error] is not bound: the function never returns
    [False]. *)
Lemma create_backup_never_false w s c backup_file_path hostname :
  (create_backup c backup_file_path hostname w s).1 <> Ok false.
Proof.
  change (post (create_backup c backup_file_path hostname) w s
            (fun r _ => r <> Ok false)).
  run; discriminate.
Qed.

Lemma create_backup_raises_NameError w s c backup_file_path hostname e :
  (create_backup c backup_file_path hostname w s).1 = Raise e ->
  e = Exception (NameError "Error").
Proof.
  change (post (create_backup c backup_file_path hostname) w s
            (fun r _ => r = Raise e -> e = Exception (NameError "Error"))).
  run; congruence.
Qed.

(** C6.  When the backup file cannot be opened, [create_backup] does not
    return [False]: it raises [NameError], which ends the session of the
    device before its audit line is printed.  A directory that cannot be
    created raises out of [get_backup_file_path] in the same way. *)
Theorem failed_backup_raises :
  let c := {| conn_host := "10.0.0.1" |} in
  let d := Lab.mk_device "10.0.0.1" in
  let path := "backups/r1/r1-2020_04_27-09_05_00.txt" in
  let w := Lab.world Lab.fleet Lab.parses_version Lab.read_only_backups Lab.answers_all in
  let w' := Lab.world Lab.fleet Lab.parses_version Lab.no_new_directory Lab.answers_all in
  fs_fault w (OpenW path) = Some (OSError "PermissionError")
  /\ (create_backup c path "r1" w Lab.fresh).1 = Raise (NameError "Error")
  /\ (process_target d Lab.timestamp [] w Lab.fresh).1 = Raise (NameError "Error")
  /\ device_events (trace (process_target d Lab.timestamp [] w Lab.fresh).2)
     = [EConnect "10.0.0.1"; EFindPrompt "10.0.0.1"; EEnable "10.0.0.1";
        ESendCommand "10.0.0.1" "sh run"]
  /\ (process_target d Lab.timestamp [] w' Lab.fresh).1 = Raise (OSError "PermissionError").
Proof. vm_compute. repeat split. Qed.

(** ** The NTP probe *)

Ltac list_probe_events :=
  cbn beta iota delta
    [app List.filter is_probe_event is_sendto_event probe_script count length] in *.

Lemma probe_ok_spec w host :
  probe_ok w host = true <->
  socket_fault w = None /\ settimeout_fault w = None /\ sendto_fault w host = None
  /\ exists reply, recvfrom_outcome w host = Reply reply.
Proof.
  unfold probe_ok.
  destruct (socket_fault w), (settimeout_fault w), (sendto_fault w host),
    (recvfrom_outcome w host); split; try discriminate; try (intros (?&?&?&?&?); discriminate).
  all: try (intros (?&?&?&?); discriminate).
  - intros _. eauto.
  - reflexivity.
Qed.

Lemma probe_run w host s :
  trace s = [] ->
  post (check_ntp_server host) w s (fun r s' =>
    r = Ok (probe_ok w host)
    /\ List.filter is_probe_event (trace s') `prefix_of` probe_script host
    /\ count is_sendto_event (trace s') <= 1
    /\ (probe_ok w host = true -> List.filter is_probe_event (trace s') = probe_script host)).
Proof.
  intros Ht. empty_trace s Ht. unfold probe_ok.
  run; list_probe_events.
  all: repeat match goal with H : _ = _ |- _ => rewrite H end.
  all: repeat split; try (eexists; reflexivity); try lia; try discriminate.
Qed.

(** C7, as the code has it.  The probe never raises and never retries: it
    sets a timeout of one second, sends at most one datagram, the 48-byte
    client-mode request, to port 123 of the server, and makes one attempt
    to receive.  It returns [False] exactly when one of its socket calls
    raises, and [True] as soon as a datagram arrives, which it does not
    inspect. *)
Theorem probe_sends_once_and_trusts_any_reply w host s :
  trace s = [] ->
  let r := (check_ntp_server host w s).1 in
  let tr := trace (check_ntp_server host w s).2 in
  r = Ok (probe_ok w host)
  /\ (r = Ok true <->
      socket_fault w = None /\ settimeout_fault w = None /\ sendto_fault w host = None
      /\ exists reply, recvfrom_outcome w host = Reply reply)
  /\ List.filter is_probe_event tr `prefix_of` probe_script host
  /\ count is_sendto_event tr <= 1
  /\ (r = Ok true -> List.filter is_probe_event tr = probe_script host)
  /\ length ntp_request = 48 /\ ntp_mode ntp_request = 3%Z.
Proof.
  intros Ht r tr.
  destruct (probe_run w host s Ht) as (Hr & Hpre & Hcount & Hall).
  fold r tr in Hr, Hpre, Hcount, Hall.
  split; [exact Hr|]. split; [|split; [exact Hpre|split; [exact Hcount|]]].
  - rewrite Hr, <- probe_ok_spec. split; [now intros [= ->] | now intros ->].
  - split; [|split; reflexivity].
    rewrite Hr. intros [= Hok]. auto.
Qed.

Lemma probe_sends_once_and_trusts_any_reply_witness :
  let w := Lab.calm in
  trace Lab.fresh = [] /\ (check_ntp_server "78.36.18.184" w Lab.fresh).1 = Ok true.
Proof.
  split; [reflexivity|].
  exact (proj1 (probe_sends_once_and_trusts_any_reply Lab.calm "78.36.18.184" Lab.fresh
                  eq_refl)).
Defined.

(** C7, as stated, fails: a reply that is no NTP packet at all, here an
    empty datagram, makes the probe return [True]. *)
Lemma malformed_reply_accepted :
  let w := Lab.world Lab.fleet Lab.parses_version Lab.no_fault Lab.answers_empty in
  recvfrom_outcome w "78.36.18.184" = Reply []
  /\ malformed_reply [] = true
  /\ (check_ntp_server "78.36.18.184" w Lab.fresh).1 = Ok true.
Proof. repeat split. Qed.

(** ** The driver *)

(** What a computation adds to the trace. *)
Ltac added_events :=
  first
    [ exists []; split; [now rewrite app_nil_r | reflexivity]
    | eexists; split; [rewrite <- ?app_assoc; reflexivity | reflexivity] ].

Lemma probe_adds w host s :
  post (check_ntp_server host) w s (fun r s' =>
    r = Ok (probe_ok w host)
    /\ exists evs, trace s' = trace s ++ evs
                   /\ forallb (fun e => is_early_event e && negb (is_now_event e)) evs = true).
Proof.
  unfold probe_ok.
  run.
  all: repeat match goal with H : _ = _ |- _ => rewrite H end.
  all: split; [reflexivity | added_events].
Qed.

Lemma process_target_adds w d ts cfg s :
  post (process_target d ts cfg) w s (fun _ s' =>
    exists evs, trace s' = trace s ++ evs
                /\ forallb is_worker_event evs = true
                /\ Forall (pushes cfg) evs).
Proof.
  run.
  all: first
    [ exists []; split; [now rewrite app_nil_r | split; [reflexivity | constructor]]
    | eexists; split; [rewrite <- ?app_assoc; reflexivity |];
      split; [reflexivity | repeat constructor] ].
Qed.

(** The loop over [NTP_SERVERS]: it never raises, and keeps the servers
    whose probe went through, in their order. *)
Lemma ntp_loop w servers : forall config_commands s,
  post (for_fold servers config_commands add_ntp_server) w s (fun r s' =>
    r = Ok (config_commands
            ++ map (fun addr => "ntp server " +:+ addr) (List.filter (probe_ok w) servers))
    /\ exists evs, trace s' = trace s ++ evs
                   /\ forallb (fun e => is_early_event e && negb (is_now_event e)) evs = true).
Proof.
  induction servers as [|server servers IH]; intros config_commands s.
  - cbn [for_fold List.filter map]. apply post_ret. rewrite app_nil_r.
    split; [reflexivity | added_events].
  - cbn [for_fold]. apply post_bind. unfold add_ntp_server. apply post_bind.
    eapply post_weaken; [apply probe_adds|].
    intros r s1 [-> (evs1 & Hs1 & Hevs1)]. cbv beta iota.
    apply post_ret.
    eapply post_weaken; [apply IH|].
    intros r s2 [-> (evs2 & Hs2 & Hevs2)]. split.
    + cbn [List.filter]. destruct (probe_ok w server); [|reflexivity].
      cbn [map]. now rewrite <- app_assoc.
    + exists (evs1 ++ evs2). rewrite Hs2, Hs1, <- app_assoc. split; [reflexivity|].
      rewrite forallb_app, Hevs1, Hevs2. reflexivity.
Qed.

Lemma rows_loop w (rows : list device) : forall device_list s,
  for_fold rows device_list (fun device_list row => ret (device_list ++ [row])) w s
  = (Ok (device_list ++ rows), s).
Proof.
  induction rows as [|row rows IH]; intros device_list s; cbn [for_fold].
  - unfold ret. now rewrite app_nil_r.
  - unfold bind at 1. unfold ret at 1. rewrite IH, <- app_assoc. reflexivity.
Qed.

(** The loop that submits the devices: it never raises; every device is
    submitted once, in order, with the same timestamp and commands, and the
    outcome of its task is kept. *)
Lemma submit_loop w ts cfg devices : forall processes s,
  post (for_fold devices processes
          (fun processes d =>
             process <- apply_async d ts cfg ;; ret (processes ++ [process]))) w s
    (fun r s' =>
       exists new evs,
         r = Ok (processes ++ new)
         /\ Forall2 (task_of w ts cfg) devices new
         /\ trace s' = trace s ++ evs
         /\ forallb is_late_event evs = true
         /\ forallb (fun e => negb (is_get_event e)) evs = true
         /\ List.filter is_submit_event evs = map (fun d => ESubmit d ts cfg) devices
         /\ Forall (pushes cfg) evs).
Proof.
  induction devices as [|d devices IH]; intros processes s.
  - cbn [for_fold]. apply post_ret. exists [], []. rewrite !app_nil_r.
    repeat split; constructor.
  - cbn [for_fold]. apply post_bind. apply post_bind. unfold apply_async.
    apply post_bind. apply post_emit. cbv beta iota. apply post_capture.
    destruct (process_target_adds w d ts cfg (add_event (ESubmit d ts cfg) s))
      as (evs1 & Hs1 & Hevs1 & Hpush1).
    unfold post at 1.
    set (r1 := (process_target d ts cfg w (add_event (ESubmit d ts cfg) s)).1).
    set (s1 := (process_target d ts cfg w (add_event (ESubmit d ts cfg) s)).2) in *.
    cbn [add_event trace] in Hs1.
    apply post_ret.
    eapply post_weaken; [apply IH|].
    intros r s2 (new & evs2 & -> & Htasks & Hs2 & Hlate & Hget & Hsub & Hpush2).
    exists (r1 :: new), (ESubmit d ts cfg :: evs1 ++ evs2).
    assert (Hclass : forall e, is_worker_event e = true ->
              is_late_event e = true /\ negb (is_get_event e) = true
              /\ is_submit_event e = false) by (now intros []).
    assert (Hall : forallb is_late_event evs1 = true
                   /\ forallb (fun e => negb (is_get_event e)) evs1 = true
                   /\ List.filter is_submit_event evs1 = []).
    { clear -Hevs1 Hclass. induction evs1 as [|e evs1 IHe]; [now repeat split|].
      cbn [forallb] in Hevs1. apply andb_true_iff in Hevs1 as [He Hevs1].
      destruct (Hclass e He) as (H1 & H2 & H3), (IHe Hevs1) as (H4 & H5 & H6).
      cbn [forallb List.filter]. now rewrite H1, H2, H3, H4, H5, H6. }
    destruct Hall as (Hl1 & Hg1 & Hs1').
    repeat split.
    + now rewrite <- app_assoc.
    + constructor; [|assumption]. now eexists.
    + rewrite Hs2, Hs1, <- !app_assoc. reflexivity.
    + cbn [forallb]. rewrite forallb_app, Hl1, Hlate. reflexivity.
    + cbn [forallb]. rewrite forallb_app, Hg1, Hget. reflexivity.
    + cbn [List.filter is_submit_event map]. rewrite List.filter_app, Hs1', Hsub. reflexivity.
    + constructor; [exact I|]. apply Forall_app. now split.
Qed.


(** The loop that waits for the results: it stops at the first task that
    raised, and raises what that task raised. *)
Lemma get_loop w processes : forall index s,
  post (get_all index processes) w s (fun r s' =>
    r = first_raised processes
    /\ exists evs, trace s' = trace s ++ evs
                   /\ forallb is_get_event evs = true
                   /\ length evs = gets_made processes).
Proof.
  induction processes as [|process processes IH]; intros index s; cbn [get_all].
  - apply post_ret. split; [reflexivity|]. exists []. now rewrite app_nil_r.
  - apply post_bind. unfold get. apply post_bind. apply post_emit. cbv beta iota.
    destruct process as [[]|e]; cbn [first_raised gets_made].
    + apply post_ret. eapply post_weaken; [apply IH|].
      intros r s' [-> (evs & Hs' & Hevs & Hlen)]. split; [reflexivity|].
      exists (EGet index :: evs). cbn [add_event trace] in Hs'.
      rewrite Hs', <- app_assoc. cbn [forallb is_get_event length]. now rewrite Hevs, Hlen.
    + apply post_raise. split; [reflexivity|]. now exists [EGet index].
Qed.

Lemma gets_made_all (processes : list (result unit)) :
  first_raised processes = Ok tt -> gets_made processes = length processes.
Proof.
  induction processes as [|[[]|e] processes IH]; cbn [first_raised gets_made length];
    [reflexivity | intros H; now rewrite IH | discriminate].
Qed.

Lemma gets_made_le (processes : list (result unit)) :
  gets_made processes <= length processes.
Proof.
  induction processes as [|[[]|e] processes IH]; cbn [gets_made length]; lia.
Qed.

Lemma first_raised_ok (processes : list (result unit)) :
  first_raised processes = Ok tt <-> Forall (fun process => process = Ok tt) processes.
Proof.
  induction processes as [|[[]|e] processes IH]; cbn [first_raised].
  - split; [constructor | reflexivity].
  - rewrite IH. split; [now constructor | now inversion 1].
  - split; [discriminate | inversion 1; discriminate].
Qed.

Lemma count_app (p : event -> bool) (l1 l2 : list event) :
  count p (l1 ++ l2) = count p l1 + count p l2.
Proof. unfold count. now rewrite List.filter_app, length_app. Qed.

Lemma count_none (p q : event -> bool) (l : list event) :
  forallb q l = true -> (forall e, q e = true -> p e = false) -> count p l = 0.
Proof.
  intros Hq Hpq. unfold count. induction l as [|e l IH]; [reflexivity|].
  cbn [forallb] in Hq. apply andb_true_iff in Hq as [He Hl].
  cbn [List.filter]. rewrite (Hpq e He). now apply IH.
Qed.

Lemma count_all (p : event -> bool) (l : list event) :
  forallb p l = true -> count p l = length l.
Proof.
  intros Hp. unfold count. induction l as [|e l IH]; [reflexivity|].
  cbn [forallb] in Hp. apply andb_true_iff in Hp as [He Hl].
  cbn [List.filter length]. rewrite He. cbn [length]. now rewrite IH.
Qed.

(** The pool: what it adds to the trace and how it ends. *)
Lemma pool_run w devices ts cfg s :
  post (run_pool devices ts cfg) w s (fun r s' =>
    exists processes evs,
      Forall2 (task_of w ts cfg) devices processes
      /\ r = first_raised processes
      /\ trace s' = trace s ++ evs
      /\ forallb is_late_event evs = true
      /\ List.filter is_submit_event evs = map (fun d => ESubmit d ts cfg) devices
      /\ count is_get_event evs = gets_made processes
      /\ Forall (pushes cfg) evs).
Proof.
  unfold run_pool, with_pool. apply post_bind. apply post_emit. cbv beta iota.
  apply post_finally. apply post_bind.
  eapply post_weaken; [apply (submit_loop w ts cfg devices [])|].
  intros r s1 (processes & evs1 & -> & Htasks & Hs1 & Hlate1 & Hget1 & Hsub1 & Hpush1).
  cbn [app add_event trace] in Hs1 |- *.
  eapply post_weaken; [apply get_loop|].
  intros r s2 [-> (evs2 & Hs2 & Hget2 & Hlen2)].
  exists processes, (EPoolOpen 4 :: evs1 ++ evs2 ++ [EPoolTerminate]).
  assert (Hlate2 : forallb is_late_event evs2 = true).
  { clear -Hget2. induction evs2 as [|[] evs2 IH]; try discriminate; [reflexivity|].
    cbn [forallb] in *. now apply IH. }
  assert (Hsub2 : List.filter is_submit_event evs2 = []).
  { clear -Hget2. induction evs2 as [|[] evs2 IH]; try discriminate; [reflexivity|].
    cbn [forallb List.filter] in *. now apply IH. }
  repeat split; try assumption.
  - cbn [add_event trace]. rewrite Hs2, Hs1, <- !app_assoc. reflexivity.
  - cbn [forallb]. rewrite !forallb_app, Hlate1, Hlate2. reflexivity.
  - cbn [List.filter is_submit_event]. rewrite !List.filter_app, Hsub1, Hsub2.
    cbn [List.filter is_submit_event]. now rewrite app_nil_r.
  - change (EPoolOpen 4 :: evs1 ++ evs2 ++ [EPoolTerminate])
      with ([EPoolOpen 4] ++ evs1 ++ evs2 ++ [EPoolTerminate]).
    rewrite !count_app, (count_all _ evs2 Hget2), Hlen2.
    rewrite (count_none is_get_event _ evs1 Hget1).
    + cbv [count List.filter is_get_event length]. lia.
    + intros e He. now destruct (is_get_event e).
  - constructor; [exact I|]. apply Forall_app. split; [assumption|].
    apply Forall_app. split; [|repeat constructor].
    clear -Hget2. induction evs2 as [|[] evs2 IH]; try discriminate; constructor;
      [exact I | now apply IH].
Qed.


Lemma forallb_both (p q : event -> bool) (l : list event) :
  forallb (fun e => p e && q e) l = true ->
  forallb p l = true /\ forallb q l = true.
Proof.
  induction l as [|e l IH]; [now split|]. cbn [forallb].
  rewrite !andb_true_iff. intros [[Hp Hq] [Hpl Hql]%IH]. tauto.
Qed.

(** All of a run of [main] that stops before the pool is early. *)
Ltac early_end :=
  eexists _, [], []; rewrite app_nil_r; split; [reflexivity|];
  repeat match goal with H : trace _ = _ |- _ => rewrite H; clear H end;
  split; [rewrite ?forallb_app;
          repeat match goal with H : forallb _ _ = true |- _ => rewrite H end;
          reflexivity|];
  split; [rewrite ?count_app;
          repeat match goal with H : count _ _ = 0 |- _ => rewrite H end;
          cbv [count List.filter is_now_event length]; lia|];
  split; [reflexivity|]; split; [reflexivity | constructor].

Lemma main_run w args s :
  trace s = [] ->
  post (main args) w s (fun r s' =>
    exists pre pool devices,
      trace s' = pre ++ pool
      /\ forallb is_early_event pre = true
      /\ count is_now_event pre <= 1
      /\ forallb is_late_event pool = true
      /\ List.filter is_submit_event pool
         = map (fun d => ESubmit d (strftime (clock w) timestamp_format)
                           (baseline (probe_ok w))) devices
      /\ Forall (pushes (baseline (probe_ok w))) pool).
Proof.
  intros Ht. empty_trace s Ht.
  run.
  all: try (early_end; fail).
  all: (eapply post_weaken; [apply ntp_loop|]);
    intros ? s2 [-> (evs & Hs2 & [Hearly Hnow]%forallb_both)];
    cbv beta iota; cbn [app] in Hs2.
  all: assert (Hcount : count is_now_event evs = 0)
    by (apply (count_none _ _ _ Hnow); intros e He; now destruct (is_now_event e)).
  all: clear Hnow.
  all: run.
  all: try (early_end; fail).
  all: unfold post at 1; rewrite rows_loop; cbn [fst snd app].
  all: run.
  all: (eapply post_weaken; [apply pool_run|]);
    intros r s3 (processes & pool & _ & _ & Hs3 & Hlate & Hsub & _ & Hpush);
    cbn [add_event trace] in Hs3.
  all: eexists _, pool, _; split; [exact Hs3|].
  all: rewrite Hs2.
  all: split; [rewrite ?forallb_app, Hearly; reflexivity|].
  all: split; [rewrite ?count_app, Hcount;
               cbv [count List.filter is_now_event length]; lia|].
  all: split; [exact Hlate | split; [exact Hsub | exact Hpush]].
Qed.

Lemma early_not_submit (l : list event) :
  forallb is_early_event l = true -> List.filter is_submit_event l = [].
Proof.
  induction l as [|e l IH]; [reflexivity|]. cbn [forallb List.filter].
  intros [He Hl]%andb_true_iff. rewrite (IH Hl). now destruct e.
Qed.

Lemma early_pushes cfg (l : list event) :
  forallb is_early_event l = true -> Forall (pushes cfg) l.
Proof.
  induction l as [|e l IH]; [constructor|]. cbn [forallb].
  intros [He Hl]%andb_true_iff. constructor; [now destruct e | now apply IH].
Qed.

(** C2, as the code has it.  Every device is submitted, and the outcome of
    its task, an exception included, is kept for [main] to get.  [main]
    gets the results in the order of the inventory and stops at the first
    task that raised, raising what it raised: it gets a result from every
    device exactly when no task raised. *)
Theorem results_until_first_failure w devices ts cfg s :
  trace s = [] ->
  let r := (run_pool devices ts cfg w s).1 in
  let tr := trace (run_pool devices ts cfg w s).2 in
  exists processes,
    Forall2 (task_of w ts cfg) devices processes
    /\ count is_submit_event tr = length devices
    /\ r = first_raised processes
    /\ count is_get_event tr = gets_made processes
    /\ (r = Ok tt <-> Forall (fun process => process = Ok tt) processes)
    /\ (r = Ok tt -> count is_get_event tr = length devices)
    /\ count is_get_event tr <= length devices.
Proof.
  intros Ht r tr.
  destruct (pool_run w devices ts cfg s)
    as (processes & evs & Htasks & Hr & Htr & _ & Hsub & Hget & _).
  fold r in Hr. fold tr in Htr. rewrite Ht in Htr. cbn [app] in Htr.
  assert (Hlen : length processes = length devices)
    by (symmetry; eapply Forall2_length; eassumption).
  exists processes. rewrite Htr, Hget, Hr.
  repeat split; try assumption.
  - unfold count. now rewrite Hsub, length_map.
  - apply first_raised_ok.
  - apply first_raised_ok.
  - intros Hok. now rewrite gets_made_all.
  - rewrite <- Hlen. apply gets_made_le.
Qed.

Lemma results_until_first_failure_witness :
  let w := Lab.calm in
  trace Lab.fresh = []
  /\ exists processes,
       Forall2 (task_of w Lab.timestamp []) Lab.inventory processes
       /\ count is_submit_event (trace (run_pool Lab.inventory Lab.timestamp [] w Lab.fresh).2)
          = length Lab.inventory.
Proof.
  split; [reflexivity|].
  destruct (results_until_first_failure Lab.calm Lab.inventory Lab.timestamp [] Lab.fresh
              eq_refl) as (processes & Htasks & Hsub & _).
  exists processes. split; assumption.
Defined.

(** C2, as stated, fails: with one unreachable device among five, [main]
    ends with the exception of that device; it has asked for two results
    and got one. *)
Lemma one_failure_ends_the_collection :
  let w := Lab.world Lab.fleet_one_down Lab.parses_version Lab.no_fault Lab.answers_all in
  let run := main [] w (initial ∅ ∅) in
  csv_rows w "devices.txt" = Reply Lab.inventory
  /\ length Lab.inventory = 5
  /\ run.1 = Raise (NetmikoException "NetmikoTimeoutException")
  /\ count is_get_event (trace run.2) = 2.
Proof. cbv zeta. split; [reflexivity|]. vm_compute. repeat split. Qed.

(** ** The backup path and the timestamp *)

Lemma div_mod_10 (n : N) : (n = 10 * (n / 10) + n mod 10 /\ n mod 10 < 10)%N.
Proof. split; [apply N.div_mod; lia | apply N.mod_lt; lia]. Qed.

(** Quotients and remainders, once their equations are known, are numbers
    like any other. *)
Ltac hide_div_mod :=
  repeat match goal with
         | |- context [(?a mod ?b)%N] =>
             let E := fresh in remember (a mod b)%N eqn:E in *; clear E
         | H : context [(?a mod ?b)%N] |- _ =>
             let E := fresh in remember (a mod b)%N eqn:E in *; clear E
         | |- context [(?a / ?b)%N] =>
             let E := fresh in remember (a / b)%N eqn:E in *; clear E
         | H : context [(?a / ?b)%N] |- _ =>
             let E := fresh in remember (a / b)%N eqn:E in *; clear E
         end.

Lemma N_of_digit (n : N) : N_of_ascii (digit n) = (48 + n mod 10)%N.
Proof.
  unfold digit. apply N_ascii_embedding.
  destruct (div_mod_10 n). hide_div_mod. lia.
Qed.

Lemma is_digit_digit (n : N) : is_digit (digit n) = true.
Proof.
  unfold is_digit. rewrite N_of_digit. destruct (div_mod_10 n).
  apply andb_true_iff. split; apply N.leb_le; hide_div_mod; lia.
Qed.

Lemma digit_value_digit (n : N) : digit_value (digit n) = (n mod 10)%N.
Proof. unfold digit_value. rewrite N_of_digit. hide_div_mod. lia. Qed.

Lemma read_zero_pad2 (n : N) : (n < 100)%N -> read_decimal (zero_pad2 n) = n.
Proof.
  intros Hn. unfold read_decimal, zero_pad2.
  cbn [list_ascii_of_string fold_left]. rewrite !digit_value_digit.
  destruct (div_mod_10 n), (div_mod_10 (n / 10)). hide_div_mod. lia.
Qed.

Lemma read_zero_pad4 (n : N) : (n < 10000)%N -> read_decimal (zero_pad4 n) = n.
Proof.
  intros Hn. unfold read_decimal, zero_pad4, zero_pad2.
  cbn [list_ascii_of_string fold_left]. rewrite !digit_value_digit.
  replace (n / 100)%N with (n / 10 / 10)%N by now rewrite N.Div0.div_div.
  replace (n / 1000)%N with (n / 10 / 10 / 10)%N by now rewrite !N.Div0.div_div.
  destruct (div_mod_10 n), (div_mod_10 (n / 10)), (div_mod_10 (n / 10 / 10)),
    (div_mod_10 (n / 10 / 10 / 10)). hide_div_mod. lia.
Qed.

Lemma strftime_fields (t : datetime) :
  strftime t timestamp_format
  = zero_pad4 (year t) +:+ "_" +:+ zero_pad2 (month t) +:+ "_" +:+ zero_pad2 (day t)
    +:+ "-" +:+ zero_pad2 (hour t) +:+ "_" +:+ zero_pad2 (minute t)
    +:+ "_" +:+ zero_pad2 (second t).
Proof. reflexivity. Qed.

Lemma strftime_shape (t : datetime) : timestamp_shape (strftime t timestamp_format) = true.
Proof.
  set (u := "_"%char). set (h := "-"%char).
  change (strftime t timestamp_format) with
    (string_of_list_ascii
       [digit (year t / 1000); digit (year t / 100); digit (year t / 10); digit (year t); u;
        digit (month t / 10); digit (month t); u;
        digit (day t / 10); digit (day t); h;
        digit (hour t / 10); digit (hour t); u;
        digit (minute t / 10); digit (minute t); u;
        digit (second t / 10); digit (second t)]).
  unfold timestamp_shape. rewrite list_ascii_of_string_of_list_ascii.
  cbn [forallb]. rewrite !is_digit_digit. reflexivity.
Qed.

Ltac flip_negb :=
  repeat match goal with
         | H : negb _ = true |- _ => apply negb_true_iff in H
         | H : negb _ = false |- _ => apply negb_false_iff in H
         end.

(** [get_backup_file_path] returns the path under the root, creating the
    directory of the device when it is not there. *)
Lemma backup_path_run w s hostname ts :
  post (get_backup_file_path hostname ts) w s (fun r s' =>
    let directory := os_path_join (BACKUP_DIR_PATH s) [hostname] in
    let path := os_path_join (BACKUP_DIR_PATH s) [hostname; backup_file_name hostname ts] in
    (fs_fault w (Mkdir directory) = None -> r = Ok path)
    /\ (directory ∈ dirs s -> r = Ok path /\ dirs s' = dirs s /\ files s' = files s)).
Proof.
  run; flip_negb.
  all: split; [try reflexivity; congruence|].
  all: intros Hin; try (repeat split; reflexivity).
  all: exfalso.
  all: repeat match goal with
         | H : _ || _ = false |- _ => apply orb_false_iff in H as [? ?]
         | H : bool_decide _ = false |- _ => apply bool_decide_eq_false in H
         end; first [discriminate | tauto].
Qed.

(** Two backups of one device with different timestamps: both files are
    there at the end, each with the configuration that was read. *)
Lemma two_backups w s c hostname ts1 ts2 text :
  ts1 <> ts2 ->
  (forall op, fs_fault w op = None) ->
  on_enable (device_at w (conn_host c)) = None ->
  on_send_command (device_at w (conn_host c)) "sh run" = Reply text ->
  post (backup_file_path <- get_backup_file_path hostname ts1 ;;
        create_backup c backup_file_path hostname ;;
        backup_file_path <- get_backup_file_path hostname ts2 ;;
        create_backup c backup_file_path hostname) w s
    (fun r s' =>
       let path1 := os_path_join (BACKUP_DIR_PATH s) [hostname; backup_file_name hostname ts1] in
       let path2 := os_path_join (BACKUP_DIR_PATH s) [hostname; backup_file_name hostname ts2] in
       r = Ok true /\ path1 <> path2
       /\ files s' !! path1 = Some text /\ files s' !! path2 = Some text).
Proof.
  intros Hts Hfault Henable Hrun.
  assert (Hpath : os_path_join (BACKUP_DIR_PATH s) [hostname; backup_file_name hostname ts1]
                  <> os_path_join (BACKUP_DIR_PATH s) [hostname; backup_file_name hostname ts2])
    by (intros Heq; now apply backup_path_inj in Heq).
  run; flip_negb.
  all: try (rewrite Hfault in *; discriminate).
  all: try (exfalso; congruence).
  all: same_answer; same_answer.
  all: try (repeat split; [exact Hpath | now rewrite lookup_insert_ne, lookup_insert_ne, lookup_insert_eq
                                       | now rewrite lookup_insert_eq]).
Qed.

(** C9, as the code has it.  With a root and a hostname that are plain
    path components, the backup of a device goes to
    [<root>/<hostname>/<hostname>-<timestamp>.txt]; a directory that is
    already there is left as it is and is no error; two backups of a device
    with different timestamps leave two files, each with its text.  The
    timestamp is the clock of the run printed as [YYYY_MM_DD-HH_MM_SS], and
    [main] reads the clock at most once. *)
Theorem backup_layout w s hostname :
  plain_root (BACKUP_DIR_PATH s) = true -> plain_component hostname = true ->
  let root := BACKUP_DIR_PATH s in
  let directory := root +:+ "/" +:+ hostname in
  let path_of timestamp :=
    root +:+ "/" +:+ hostname +:+ "/" +:+ hostname +:+ "-" +:+ timestamp +:+ ".txt" in
  (forall timestamp, fs_fault w (Mkdir directory) = None ->
     (get_backup_file_path hostname timestamp w s).1 = Ok (path_of timestamp))
  /\ (forall timestamp, directory ∈ dirs s ->
      (get_backup_file_path hostname timestamp w s).1 = Ok (path_of timestamp)
      /\ dirs (get_backup_file_path hostname timestamp w s).2 = dirs s)
  /\ (forall c ts1 ts2 text,
      ts1 <> ts2 ->
      (forall op, fs_fault w op = None) ->
      on_enable (device_at w (conn_host c)) = None ->
      on_send_command (device_at w (conn_host c)) "sh run" = Reply text ->
      let run :=
        (backup_file_path <- get_backup_file_path hostname ts1 ;;
         create_backup c backup_file_path hostname ;;
         backup_file_path <- get_backup_file_path hostname ts2 ;;
         create_backup c backup_file_path hostname) w s in
      run.1 = Ok true /\ path_of ts1 <> path_of ts2
      /\ files run.2 !! path_of ts1 = Some text
      /\ files run.2 !! path_of ts2 = Some text)
  /\ (forall s0, (get_current_date_and_time w s0).1 = Ok (strftime (clock w) timestamp_format))
  /\ timestamp_shape (strftime (clock w) timestamp_format) = true
  /\ strftime (clock w) timestamp_format
     = zero_pad4 (year (clock w)) +:+ "_" +:+ zero_pad2 (month (clock w)) +:+ "_"
       +:+ zero_pad2 (day (clock w)) +:+ "-" +:+ zero_pad2 (hour (clock w)) +:+ "_"
       +:+ zero_pad2 (minute (clock w)) +:+ "_" +:+ zero_pad2 (second (clock w))
  /\ (valid_datetime (clock w) ->
      read_decimal (zero_pad4 (year (clock w))) = year (clock w)
      /\ read_decimal (zero_pad2 (month (clock w))) = month (clock w)
      /\ read_decimal (zero_pad2 (day (clock w))) = day (clock w)
      /\ read_decimal (zero_pad2 (hour (clock w))) = hour (clock w)
      /\ read_decimal (zero_pad2 (minute (clock w))) = minute (clock w)
      /\ read_decimal (zero_pad2 (second (clock w))) = second (clock w))
  /\ (forall args s0, trace s0 = [] ->
      count is_now_event (trace (main args w s0).2) <= 1).
Proof.
  intros Hroot Hname root directory path_of.
  assert (Hdir : os_path_join root [hostname] = directory).
  { destruct (plain_root_spec _ Hroot) as [? ?].
    destruct (plain_component_spec _ Hname) as (? & ? & ?).
    unfold os_path_join. cbn [fold_left]. now apply join_step_plain. }
  assert (Hpath : forall ts,
            os_path_join root [hostname; backup_file_name hostname ts] = path_of ts)
    by (intros ts; now apply backup_path_plain).
  split; [|split; [|split; [|split; [|split; [|split; [|split]]]]]].
  - intros ts Hfault.
    destruct (backup_path_run w s hostname ts) as [H _]. fold root in H.
    rewrite Hdir, Hpath in H. now apply H.
  - intros ts Hin.
    destruct (backup_path_run w s hostname ts) as [_ H]. fold root in H.
    rewrite Hdir, Hpath in H. destruct (H Hin) as (? & ? & ?). now split.
  - intros c ts1 ts2 text Hts Hfault Henable Hrun run.
    pose proof (two_backups w s c hostname ts1 ts2 text Hts Hfault Henable Hrun) as H.
    unfold post in H. fold run root in H. now rewrite !Hpath in H.
  - intros s0. reflexivity.
  - apply strftime_shape.
  - apply strftime_fields.
  - intros (? & ? & ? & ? & ? & ?).
    repeat split; first [apply read_zero_pad4 | apply read_zero_pad2]; lia.
  - intros args s0 Ht.
    destruct (main_run w args s0 Ht) as (pre & pool & ? & Htr & _ & Hnow & Hlate & _).
    rewrite Htr, count_app.
    rewrite (count_none is_now_event _ pool Hlate); [lia|].
    intros e He. unfold is_late_event in He. now destruct (is_now_event e), (is_probe_event e).
Qed.

Lemma backup_layout_witness :
  let w := Lab.calm in
  let s := Lab.fresh in
  let c := {| conn_host := "10.0.0.1" |} in
  let run :=
    (backup_file_path <- get_backup_file_path "r1" "2024_01_01-00_00_00" ;;
     create_backup c backup_file_path "r1" ;;
     backup_file_path <- get_backup_file_path "r1" "2024_01_02-00_00_00" ;;
     create_backup c backup_file_path "r1") w s in
  (plain_root (BACKUP_DIR_PATH s) = true /\ plain_component "r1" = true
   /\ "2024_01_01-00_00_00" <> "2024_01_02-00_00_00"
   /\ (forall op, fs_fault w op = None)
   /\ on_enable (device_at w (conn_host c)) = None
   /\ on_send_command (device_at w (conn_host c)) "sh run" = Reply "hostname r1")
  /\ run.1 = Ok true
  /\ "backups/r1/r1-2024_01_01-00_00_00.txt" <> "backups/r1/r1-2024_01_02-00_00_00.txt"
  /\ files run.2 !! "backups/r1/r1-2024_01_01-00_00_00.txt" = Some "hostname r1"
  /\ files run.2 !! "backups/r1/r1-2024_01_02-00_00_00.txt" = Some "hostname r1".
Proof.
  split.
  - repeat split; try reflexivity. discriminate.
  - apply (proj1 (proj2 (proj2 (backup_layout Lab.calm Lab.fresh "r1" eq_refl eq_refl)))
             {| conn_host := "10.0.0.1" |} "2024_01_01-00_00_00" "2024_01_02-00_00_00"
             "hostname r1");
      [discriminate | reflexivity | reflexivity | reflexivity].
Defined.


(** C9, as stated, fails: a hostname that begins with the separator makes
    [os.path.join] drop what comes before it, the backup root included.  A
    device whose prompt is [/r1#] has its backup written to the root of the
    file system. *)
Lemma absolute_hostname_leaves_the_root :
  let w := Lab.world (fun _ => Lab.router "/r1#") Lab.parses_version Lab.no_fault
             Lab.answers_all in
  let path := get_backup_file_path "/r1" Lab.timestamp w Lab.fresh in
  let run := process_target (Lab.mk_device "10.0.0.1") Lab.timestamp [] w Lab.fresh in
  BACKUP_DIR_PATH Lab.fresh = "backups"
  /\ path.1 = Ok "/r1-2020_04_27-09_05_00.txt"
  /\ path.1 <> Ok "backups//r1//r1-2020_04_27-09_05_00.txt"
  /\ run.1 = Ok tt
  /\ files run.2 !! "/r1-2020_04_27-09_05_00.txt" = Some "hostname r1".
Proof.
  cbv zeta. repeat split; try (vm_compute; reflexivity).
  vm_compute. discriminate.
Qed.

(** * Further properties of the script *)

(** ** Connecting *)

(** X1.  A row of the inventory that lacks one of the five keys makes
    [connect_to_device], and with it the session, raise [KeyError] for the
    first key that is missing, before anything is done: no connection is
    attempted and nothing is printed. *)
Theorem connect_needs_every_key w d ts cfg s key :
  first_missing_key d = Some key ->
  connect_to_device d w s = (Raise (KeyError key), s)
  /\ process_target d ts cfg w s = (Raise (KeyError key), s).
Proof.
  unfold first_missing_key, connection_keys. cbn [List.find]. intros Hkey.
  assert (Hconnect : connect_to_device d w s = (Raise (KeyError key), s)).
  { unfold connect_to_device, bind, getitem.
    destruct (d !! "ip"); [|now injection Hkey as <-].
    destruct (d !! "username"); [|now injection Hkey as <-].
    destruct (d !! "password"); [|now injection Hkey as <-].
    destruct (d !! "device_type"); [|now injection Hkey as <-].
    destruct (d !! "secret"); [discriminate | now injection Hkey as <-]. }
  split; [exact Hconnect|].
  unfold process_target, bind. now rewrite Hconnect.
Qed.

Lemma connect_needs_every_key_witness :
  first_missing_key Cases.no_secret = Some "secret"
  /\ process_target Cases.no_secret Lab.timestamp [] Lab.calm Lab.fresh
     = (Raise (KeyError "secret"), Lab.fresh).
Proof.
  split; [reflexivity|].
  apply (connect_needs_every_key Lab.calm Cases.no_secret Lab.timestamp [] Lab.fresh
           "secret").
  reflexivity.
Defined.

(** ** The probe, again *)

(** X2.  The probe touches neither the file system nor the globals, and it
    prints one line, naming the server, exactly when it returns [False]. *)
Theorem probe_prints_only_on_failure w host s :
  let s' := (check_ntp_server host w s).2 in
  dirs s' = dirs s /\ files s' = files s /\ same_globals s s'
  /\ exists evs,
       trace s' = trace s ++ evs
       /\ List.filter is_print_event evs
          = if probe_ok w host then [] else [EPrint (probe_error_line host)].
Proof.
  change (post (check_ntp_server host) w s (fun _ s' =>
    dirs s' = dirs s /\ files s' = files s /\ same_globals s s'
    /\ exists evs,
         trace s' = trace s ++ evs
         /\ List.filter is_print_event evs
            = if probe_ok w host then [] else [EPrint (probe_error_line host)])).
  unfold probe_ok, same_globals.
  run.
  all: repeat match goal with H : _ = _ |- _ => rewrite H end.
  all: repeat split.
  all: eexists; split; [rewrite <- ?app_assoc; reflexivity | reflexivity].
Qed.

(** ** The inventory *)

(** X3.  [get_devices_from_file] returns the rows of the file as the reader
    yields them, all of them and in their order, after which it prints
    three lines; when the file cannot be read it raises what the reader
    raised and prints nothing. *)
Theorem inventory_rows_in_order w s device_file :
  get_devices_from_file device_file w s
  = match csv_rows w device_file with
    | Reply rows =>
        (Ok rows,
         add_event (EPrint "")
           (add_event (EPrint dashes)
              (add_event (EPrint "Got the device list from inventory") s)))
    | Fails e => (Raise (Exception e), s)
    end.
Proof.
  unfold get_devices_from_file, outcome. unfold bind at 1.
  destruct (csv_rows w device_file) as [rows|e]; [|reflexivity].
  unfold bind at 1. rewrite rows_loop. reflexivity.
Qed.

(** ** The backup, again *)

(** X4.  When the device enters privileged mode and answers [sh run], and
    the file can be opened and written, [create_backup] returns [True] and
    the file holds exactly the output of [sh run], whatever it held before;
    no other file and no directory is touched. *)
Theorem create_backup_writes_output w s c backup_file_path hostname output :
  on_enable (device_at w (conn_host c)) = None ->
  on_send_command (device_at w (conn_host c)) "sh run" = Reply output ->
  fs_fault w (OpenW backup_file_path) = None ->
  fs_fault w (WriteTo backup_file_path) = None ->
  let run := create_backup c backup_file_path hostname w s in
  run.1 = Ok true
  /\ files run.2 = <[backup_file_path := output]> (files s)
  /\ dirs run.2 = dirs s.
Proof.
  intros Henable Hrun Hopen Hwrite.
  change (post (create_backup c backup_file_path hostname) w s (fun r s' =>
    r = Ok true
    /\ files s' = <[backup_file_path := output]> (files s)
    /\ dirs s' = dirs s)).
  run; try congruence.
  same_answer. repeat split. apply insert_insert_eq.
Qed.

Lemma create_backup_writes_output_witness :
  let c := {| conn_host := "10.0.0.1" |} in
  let path := "backups/r1/r1-2020_04_27-09_05_00.txt" in
  let s := initial {["backups"; "backups/r1"]} {[path := "an older backup"]} in
  let run := create_backup c path "r1" Lab.calm s in
  (on_enable (device_at Lab.calm (conn_host c)) = None
   /\ on_send_command (device_at Lab.calm (conn_host c)) "sh run" = Reply "hostname r1"
   /\ fs_fault Lab.calm (OpenW path) = None
   /\ fs_fault Lab.calm (WriteTo path) = None)
  /\ files run.2 = <[path := "hostname r1"]> (files s).
Proof.
  split; [repeat split|].
  exact (proj1 (proj2 (create_backup_writes_output Lab.calm
                         (initial {["backups"; "backups/r1"]}
                            {["backups/r1/r1-2020_04_27-09_05_00.txt" := "an older backup"]})
                         {| conn_host := "10.0.0.1" |}
                         "backups/r1/r1-2020_04_27-09_05_00.txt" "r1" "hostname r1"
                         eq_refl eq_refl eq_refl eq_refl))).
Defined.

(** ** The session and the file system *)

(** X5.  A session writes to one file at most, the backup of its device,
    and adds one directory at most, the one of its device; every other
    file and every directory that was there stays as it was, and so do the
    globals. *)
Theorem session_touches_only_its_backup w d ts cfg s h prompt :
  d !! "ip" = Some h ->
  on_find_prompt (device_at w h) = Reply prompt ->
  let s' := (process_target d ts cfg w s).2 in
  let hostname := drop_last prompt in
  let directory := os_path_join (BACKUP_DIR_PATH s) [hostname] in
  let path := os_path_join (BACKUP_DIR_PATH s) [hostname; backup_file_name hostname ts] in
  (forall p, p <> path -> files s' !! p = files s !! p)
  /\ dirs s ⊆ dirs s'
  /\ dirs s' ⊆ {[directory]} ∪ dirs s
  /\ same_globals s s'.
Proof.
  intros Hh Hprompt.
  change (post (process_target d ts cfg) w s (fun _ s' =>
    (forall p,
       p <> os_path_join (BACKUP_DIR_PATH s)
              [drop_last prompt; backup_file_name (drop_last prompt) ts] ->
       files s' !! p = files s !! p)
    /\ dirs s ⊆ dirs s'
    /\ dirs s' ⊆ {[os_path_join (BACKUP_DIR_PATH s) [drop_last prompt]]} ∪ dirs s
    /\ same_globals s s')).
  unfold same_globals.
  run; rewrite ?Hh in *; simplify_eq; same_answer.
  all: split; [intros p Hp; now rewrite ?lookup_insert_ne by congruence|].
  all: split; [set_solver|]. 
  all: split; [set_solver|]. 
  all: split; reflexivity.
Qed.

Lemma session_touches_only_its_backup_witness :
  let d := Lab.mk_device "10.0.0.1" in
  let s := initial {["backups"]} {["backups/notes.txt" := "keep"]} in
  let s' := (process_target d Lab.timestamp [] Lab.calm s).2 in
  (d !! "ip" = Some "10.0.0.1"
   /\ on_find_prompt (device_at Lab.calm "10.0.0.1") = Reply "r1#")
  /\ files s' !! "backups/notes.txt" = Some "keep".
Proof.
  split; [repeat split|].
  exact (proj1 (session_touches_only_its_backup Lab.calm (Lab.mk_device "10.0.0.1")
                  Lab.timestamp []
                  (initial {["backups"]} {["backups/notes.txt" := "keep"]})
                  "10.0.0.1" "r1#" eq_refl eq_refl)
           "backups/notes.txt" ltac:(discriminate)).
Defined.

(** X6.  A session that returns has opened one file, once, and left in it
    the output of [sh run] as the device gave it. *)
Theorem session_leaves_one_backup w d ts cfg s h prompt output :
  trace s = [] -> d !! "ip" = Some h ->
  on_find_prompt (device_at w h) = Reply prompt ->
  on_send_command (device_at w h) "sh run" = Reply output ->
  let r := (process_target d ts cfg w s).1 in
  let s' := (process_target d ts cfg w s).2 in
  let hostname := drop_last prompt in
  let path := os_path_join (BACKUP_DIR_PATH s) [hostname; backup_file_name hostname ts] in
  r = Ok tt ->
  files s' !! path = Some output
  /\ List.filter is_open_event (trace s') = [EOpenW path].
Proof.
  intros Ht Hh Hprompt Houtput. empty_trace s Ht.
  change (post (process_target d ts cfg) w
            {| trace := []; dirs := dirs0; files := files0;
               DEVICE_FILE_PATH := DEVICE_FILE_PATH0; BACKUP_DIR_PATH := BACKUP_DIR_PATH0 |}
            (fun r s' => r = Ok tt ->
               files s' !! os_path_join BACKUP_DIR_PATH0
                              [drop_last prompt; backup_file_name (drop_last prompt) ts]
               = Some output
               /\ List.filter is_open_event (trace s')
                  = [EOpenW (os_path_join BACKUP_DIR_PATH0
                               [drop_last prompt;
                                backup_file_name (drop_last prompt) ts])])).
  run; rewrite ?Hh in *; simplify_eq.
  all: try (intros [=]; fail).
  all: same_answer; same_answer.
  all: intros _; split; [now rewrite lookup_insert_eq | reflexivity].
Qed.

Lemma session_leaves_one_backup_witness :
  let d := Lab.mk_device "10.0.0.1" in
  let r := (process_target d Lab.timestamp [] Lab.calm Lab.fresh).1 in
  let s' := (process_target d Lab.timestamp [] Lab.calm Lab.fresh).2 in
  (trace Lab.fresh = [] /\ d !! "ip" = Some "10.0.0.1"
   /\ on_find_prompt (device_at Lab.calm "10.0.0.1") = Reply "r1#"
   /\ on_send_command (device_at Lab.calm "10.0.0.1") "sh run" = Reply "hostname r1"
   /\ r = Ok tt)
  /\ files s' !! "backups/r1/r1-2020_04_27-09_05_00.txt" = Some "hostname r1".
Proof.
  split; [repeat split|].
  exact (proj1 (session_leaves_one_backup Lab.calm (Lab.mk_device "10.0.0.1")
                  Lab.timestamp [] Lab.fresh "10.0.0.1" "r1#" "hostname r1"
                  eq_refl eq_refl eq_refl eq_refl eq_refl)).
Defined.

(** The answers the world gave to one call, met twice on a path, are one. *)
Ltac same_answer' :=
  match goal with
  | H1 : ?call = Reply ?a, H2 : ?call = Reply ?b |- _ =>
      first [constr_eq a b; fail 1 | rewrite H1 in H2; injection H2 as ?; subst]
  | H1 : ?x = Some ?a, H2 : ?x = Some ?b |- _ =>
      first [constr_eq a b; fail 1 | rewrite H1 in H2; injection H2 as ?; subst]
  end.

(** ** What a session prints *)

Lemma cdp_status_spec (sh_cdn_nei : string) :
  (cdp_status sh_cdn_nei = "CDP is OFF" <-> is_substring "CDP is not enabled" sh_cdn_nei)
  /\ (cdp_status sh_cdn_nei = "CDP is ON" <-> ~ is_substring "CDP is not enabled" sh_cdn_nei).
Proof.
  unfold cdp_status. rewrite <- contains_spec.
  destruct (contains "CDP is not enabled" sh_cdn_nei); split; split;
    try discriminate; try congruence; try tauto.
Qed.

(** X7.  What a session that returns has printed, line by line: three
    lines for the connection, three for the backup path, three for the
    backup, the audit line and the line of the disconnect.  The audit line
    is made of the hostname, the seventh field of the first row found in
    [show version] joined by commas, its first field, the edition, the CDP
    status (off exactly when the output of [show cdp neighbors] says that
    CDP is not enabled), the number of rows found in that output, and the
    NTP status. *)
Theorem session_output w d ts cfg s h prompt sh_cdn_nei neighbors sh_vers row more
    hardware version sh_ntp_sta :
  trace s = [] -> d !! "ip" = Some h ->
  on_find_prompt (device_at w h) = Reply prompt ->
  on_send_command (device_at w h) "show cdp neighbors" = Reply sh_cdn_nei ->
  textfsm_parse w SHOW_CDP_NEI sh_cdn_nei = Reply neighbors ->
  on_send_command (device_at w h) "show version" = Reply sh_vers ->
  textfsm_parse w SHOW_VERS sh_vers = Reply (row :: more) ->
  row !! 6 = Some hardware -> row !! 0 = Some (VStr version) ->
  on_send_command (device_at w h) "show ntp status" = Reply sh_ntp_sta ->
  let r := (process_target d ts cfg w s).1 in
  let tr := trace (process_target d ts cfg w s).2 in
  let hostname := drop_last prompt in
  r = Ok tt ->
  List.filter is_print_event tr
  = map EPrint
      ["Opened connection to " +:+ h; dashes; "";
       "Backup file path will be "
       +:+ os_path_join (BACKUP_DIR_PATH s) [hostname; backup_file_name hostname ts];
       dashes; "";
       "Backup of " +:+ hostname +:+ " is complete!"; dashes; "";
       audit_line hostname (comma_join hardware) version (edition sh_vers)
         (cdp_status sh_cdn_nei) (length neighbors) (ntp_sync_status sh_ntp_sta);
       "Connection to device " +:+ hostname +:+ " terminated"]
  /\ (cdp_status sh_cdn_nei = "CDP is OFF"
      <-> is_substring "CDP is not enabled" sh_cdn_nei).
Proof.
  intros Ht Hh Hprompt Hcdp Hneighbors Hvers Hrows Hhardware Hversion Hntp r tr hostname Hr.
  split; [|apply cdp_status_spec].
  revert Hr. subst r tr hostname. empty_trace s Ht.
  match goal with
  | |- _ = Ok tt -> List.filter _ (trace _) = ?lines =>
      change (post (process_target d ts cfg) w
                {| trace := []; dirs := dirs0; files := files0;
                   DEVICE_FILE_PATH := DEVICE_FILE_PATH0;
                   BACKUP_DIR_PATH := BACKUP_DIR_PATH0 |}
                (fun r s' => r = Ok tt -> List.filter is_print_event (trace s') = lines))
  end.
  run; rewrite ?Hh in *; simplify_eq.
  all: try (intros [=]; fail).
  all: repeat first [same_answer' | progress cbn [lookup list_lookup] in * | progress simplify_eq].
  all: intros _; reflexivity.
Qed.

Lemma session_output_witness :
  let w := Lab.calm in
  let d := Lab.mk_device "10.0.0.1" in
  let sh_cdn_nei :=
    "Device ID        Local Intrfce     Holdtme    Capability  Platform  Port ID" in
  let sh_vers :=
    "Cisco IOS Software, C2900 Software (C2900-UNIVERSALK9-M), Version 15.2(4)M6" in
  let sh_ntp_sta := "Clock is unsynchronized, stratum 16, no reference clock" in
  let r := (process_target d Lab.timestamp [] w Lab.fresh).1 in
  let tr := trace (process_target d Lab.timestamp [] w Lab.fresh).2 in
  (trace Lab.fresh = [] /\ d !! "ip" = Some "10.0.0.1"
   /\ on_find_prompt (device_at w "10.0.0.1") = Reply "r1#"
   /\ on_send_command (device_at w "10.0.0.1") "show cdp neighbors" = Reply sh_cdn_nei
   /\ textfsm_parse w SHOW_CDP_NEI sh_cdn_nei = Reply []
   /\ on_send_command (device_at w "10.0.0.1") "show version" = Reply sh_vers
   /\ textfsm_parse w SHOW_VERS sh_vers = Reply [Lab.version_row]
   /\ Lab.version_row !! 6 = Some (VList ["CISCO2911/K9"])
   /\ Lab.version_row !! 0 = Some (VStr "15.2(4)M6")
   /\ on_send_command (device_at w "10.0.0.1") "show ntp status" = Reply sh_ntp_sta
   /\ r = Ok tt)
  /\ List.filter is_print_event tr
     = map EPrint
         ["Opened connection to 10.0.0.1"; dashes; "";
          "Backup file path will be backups/r1/r1-2020_04_27-09_05_00.txt"; dashes; "";
          "Backup of r1 is complete!"; dashes; "";
          "r1|CISCO2911/K9|15.2(4)M6|PE|CDP is ON,0 peers|Clock in Sync";
          "Connection to device r1 terminated"].
Proof.
  split; [repeat split|].
  exact (proj1 (session_output Lab.calm (Lab.mk_device "10.0.0.1") Lab.timestamp []
                  Lab.fresh "10.0.0.1" "r1#"
                  "Device ID        Local Intrfce     Holdtme    Capability  Platform  Port ID"
                  []
                  "Cisco IOS Software, C2900 Software (C2900-UNIVERSALK9-M), Version 15.2(4)M6"
                  Lab.version_row [] (VList ["CISCO2911/K9"]) "15.2(4)M6"
                  "Clock is unsynchronized, stratum 16, no reference clock"
                  eq_refl eq_refl eq_refl eq_refl eq_refl eq_refl eq_refl eq_refl eq_refl
                  eq_refl eq_refl)).
Defined.

(** X8.  The fields of the version row are read only when the audit line
    is put together, after the configuration has been pushed and the NTP
    status read: a first row with fewer than seven fields makes the session
    raise [IndexError] there, with every call but the disconnect made. *)
Theorem short_version_row_fails_after_push w d ts cfg s h sh_vers row more sh_ntp_sta :
  trace s = [] -> d !! "ip" = Some h ->
  on_send_command (device_at w h) "show version" = Reply sh_vers ->
  textfsm_parse w SHOW_VERS sh_vers = Reply (row :: more) ->
  row !! 6 = None ->
  on_send_command (device_at w h) "show ntp status" = Reply sh_ntp_sta ->
  let r := (process_target d ts cfg w s).1 in
  let tr := trace (process_target d ts cfg w s).2 in
  In (ESendCommand h "show ntp status") tr ->
  r = Raise IndexError
  /\ device_events tr
     = [EConnect h; EFindPrompt h; EEnable h; ESendCommand h "sh run";
        ESendCommand h "show cdp neighbors"; ESendCommand h "show version";
        ESendConfigSet h cfg; ESendCommand h "show ntp status"].
Proof.
  intros Ht Hh Hvers Hrows Hshort Hntp. empty_trace s Ht.
  cut (post (process_target d ts cfg) w
         {| trace := []; dirs := dirs0; files := files0;
            DEVICE_FILE_PATH := DEVICE_FILE_PATH0; BACKUP_DIR_PATH := BACKUP_DIR_PATH0 |}
         (fun r s' => In (ESendCommand h "show ntp status") (trace s') ->
            r = Raise IndexError
            /\ device_events (trace s')
               = [EConnect h; EFindPrompt h; EEnable h; ESendCommand h "sh run";
                  ESendCommand h "show cdp neighbors"; ESendCommand h "show version";
                  ESendConfigSet h cfg; ESendCommand h "show ntp status"])).
  { intros H. exact H. }
  run; rewrite ?Hh in *; simplify_eq; list_events.
  all: try (intros Hin; exfalso; intuition discriminate).
  all: repeat first [same_answer' | progress cbn [lookup list_lookup] in * | progress simplify_eq].
  all: try (exfalso; congruence).
  all: intros _; split; reflexivity.
Qed.

Lemma short_version_row_fails_after_push_witness :
  let w := Cases.short_version in
  let d := Lab.mk_device "10.0.0.1" in
  let r := (process_target d Lab.timestamp [] w Lab.fresh).1 in
  let tr := trace (process_target d Lab.timestamp [] w Lab.fresh).2 in
  In (ESendCommand "10.0.0.1" "show ntp status") tr /\ r = Raise IndexError.
Proof.
  cbv zeta.
  assert (Hin : In (ESendCommand "10.0.0.1" "show ntp status")
                  (trace (process_target (Lab.mk_device "10.0.0.1") Lab.timestamp []
                            Cases.short_version Lab.fresh).2))
    by (vm_compute; tauto).
  split; [exact Hin|].
  exact (proj1 (short_version_row_fails_after_push Cases.short_version
                  (Lab.mk_device "10.0.0.1") Lab.timestamp [] Lab.fresh "10.0.0.1"
                  "Cisco IOS Software, C2900 Software (C2900-UNIVERSALK9-M), Version 15.2(4)M6"
                  [VStr "15.2(4)M6"; VStr "15.0(1r)M16"] []
                  "Clock is unsynchronized, stratum 16, no reference clock"
                  eq_refl eq_refl eq_refl eq_refl eq_refl eq_refl Hin)).
Defined.

(** ** The driver, again *)

Lemma probe_adds_only w host s :
  post (check_ntp_server host) w s (fun r s' =>
    r = Ok (probe_ok w host)
    /\ same_globals s s'
    /\ exists evs, trace s' = trace s ++ evs
                   /\ forallb (fun e => is_probe_event e || is_print_event e) evs = true).
Proof.
  unfold probe_ok, same_globals.
  run.
  all: repeat match goal with H : _ = _ |- _ => rewrite H end.
  all: split; [reflexivity | split; [split; reflexivity | added_events]].
Qed.

Lemma ntp_loop_adds_only w servers : forall config_commands s,
  post (for_fold servers config_commands add_ntp_server) w s (fun r s' =>
    r = Ok (config_commands
            ++ map (fun addr => "ntp server " +:+ addr) (List.filter (probe_ok w) servers))
    /\ same_globals s s'
    /\ exists evs, trace s' = trace s ++ evs
                   /\ forallb (fun e => is_probe_event e || is_print_event e) evs = true).
Proof.
  induction servers as [|server servers IH]; intros config_commands s.
  - cbn [for_fold List.filter map]. apply post_ret. rewrite app_nil_r.
    split; [reflexivity | split; [split; reflexivity | added_events]].
  - cbn [for_fold]. apply post_bind. unfold add_ntp_server. apply post_bind.
    eapply post_weaken; [apply probe_adds_only|].
    intros r s1 [-> ([Hd1 Hb1] & evs1 & Hs1 & Hevs1)]. cbv beta iota.
    apply post_ret.
    eapply post_weaken; [apply IH|].
    intros r s2 [-> ([Hd2 Hb2] & evs2 & Hs2 & Hevs2)]. split; [|split].
    + cbn [List.filter]. destruct (probe_ok w server); [|reflexivity].
      cbn [map]. now rewrite <- app_assoc.
    + split; congruence.
    + exists (evs1 ++ evs2). rewrite Hs2, Hs1, <- app_assoc. split; [reflexivity|].
      rewrite forallb_app, Hevs1, Hevs2. reflexivity.
Qed.

Lemma forallb_weaken (p q : event -> bool) (l : list event) :
  (forall e, p e = true -> q e = true) -> forallb p l = true -> forallb q l = true.
Proof.
  intros Hpq. induction l as [|e l IH]; [reflexivity|]. cbn [forallb].
  intros [He Hl]%andb_true_iff. now rewrite (Hpq e He), IH.
Qed.

(** How a run of [main] ends, case by case. *)
Lemma main_outcome w args s :
  post (main args) w s (fun r s' =>
    let root := chosen_backup_dir args s in
    let device_file := chosen_device_file args s in
    let timestamp := strftime (clock w) timestamp_format in
    let config_commands := baseline (probe_ok w) in
    if Nat.ltb 2 (length args) then
      r = Raise (SystemExit 1) /\ s' = add_event (EPrint usage_line) s
    else
      match fs_fault w (Makedirs root) with
      | Some e =>
          r = Raise (Exception e)
          /\ trace s' = trace s ++ [ELogging "test.log"; EMakedirs root]
      | None =>
          exists evs,
            trace s' = trace s ++ evs
            /\ match csv_rows w device_file with
               | Fails e =>
                   r = Raise (Exception e)
                   /\ forallb (fun e => negb (is_session_event e) && negb (is_pool_event e))
                        evs = true
               | Reply rows =>
                   exists processes,
                     Forall2 (task_of w timestamp config_commands) rows processes
                     /\ r = first_raised processes
                     /\ List.filter is_submit_event evs
                        = map (fun d => ESubmit d timestamp config_commands) rows
               end
      end).
Proof.
  assert (Hclass : forall e, is_probe_event e || is_print_event e = true ->
            negb (is_session_event e) && negb (is_pool_event e) = true
            /\ is_submit_event e = false) by (now intros []).
  run.
  all: try (split; reflexivity).
  all: cbn [length Nat.ltb Nat.leb chosen_backup_dir chosen_device_file
            DEVICE_FILE_PATH BACKUP_DIR_PATH].
  all: try (destruct l0; discriminate).
  all: repeat match goal with
         | H : fs_fault _ _ = _ |- _ => rewrite H
         end.
  all: try (split; [reflexivity | now rewrite <- ?app_assoc]).
  all: (eapply post_weaken; [apply ntp_loop_adds_only|]);
    intros ? s2 [-> ([Hdfp Hbdp] & evs & Hs2 & Hevs)]; cbv beta iota;
    cbn [DEVICE_FILE_PATH BACKUP_DIR_PATH add_event with_DEVICE_FILE_PATH
         with_BACKUP_DIR_PATH] in Hdfp, Hbdp.
  all: assert (Hpre : forallb (fun e => negb (is_session_event e) && negb (is_pool_event e))
                        evs = true
                      /\ List.filter is_submit_event evs = []).
  all: try (clear -Hevs Hclass; induction evs as [|e evs IH]; [now split|];
            cbn [forallb] in Hevs; apply andb_true_iff in Hevs as [He Hevs];
            destruct (Hclass e He) as [H1 H2], (IH Hevs) as [H3 H4];
            cbn [forallb List.filter]; now rewrite H1, H2, H3, H4).
  all: destruct Hpre as [Hquiet Hnosub]; clear Hevs.
  all: run; rewrite ?Hdfp in *.
  all: try (match goal with H : csv_rows _ _ = Fails _ |- _ => rewrite H end;
            eexists; split; [rewrite Hs2, <- ?app_assoc; reflexivity|];
            split; [reflexivity|];
            rewrite ?forallb_app, Hquiet; reflexivity).
  all: unfold post at 1; rewrite rows_loop; cbn [fst snd app].
  all: run.
  all: (eapply post_weaken; [apply pool_run|]);
    intros r s3 (processes & pool & Htasks & -> & Hs3 & _ & Hsub & _);
    cbn [add_event trace] in Hs3.
  all: match goal with H : csv_rows _ _ = Reply _ |- _ => rewrite H end.
  all: eexists; split; [rewrite Hs3, Hs2, <- ?app_assoc; reflexivity|].
  all: exists processes; split; [exact Htasks|]; split; [reflexivity|].
  all: rewrite ?List.filter_app, Hnosub, Hsub; reflexivity.
Qed.

Lemma session_never_exits w d ts cfg s :
  post (process_target d ts cfg) w s (fun r _ => forall code, r <> Raise (SystemExit code)).
Proof. run; discriminate. Qed.

Lemma first_raised_never_exits w ts cfg devices processes :
  Forall2 (task_of w ts cfg) devices processes ->
  forall code, first_raised processes <> Raise (SystemExit code).
Proof.
  induction 1 as [|d process devices processes [s Htask] _ IH]; intros code;
    cbn [first_raised]; [discriminate|].
  destruct process as [[]|e]; [apply IH|].
  rewrite Htask. apply session_never_exits.
Qed.

(** X9.  [main] ends with [SystemExit] exactly when it is given more than
    two arguments; it then exits with code 1, having printed the usage line
    and done nothing else.  No failure of a probe, of the file system, of
    the inventory or of a device makes it exit that way. *)
Theorem main_exits_only_on_usage w args s :
  ((exists code, (main args w s).1 = Raise (SystemExit code)) <-> 2 < length args)
  /\ (2 < length args ->
      main args w s = (Raise (SystemExit 1), add_event (EPrint usage_line) s)).
Proof.
  pose proof (main_outcome w args s) as H. unfold post in H. cbv zeta in H.
  destruct (Nat.ltb 2 (length args)) eqn:Hlen.
  - apply Nat.ltb_lt in Hlen. destruct H as [Hr Hs]. split.
    + split; [intros _; exact Hlen | intros _; now exists 1%Z].
    + intros _. destruct (main args w s). simpl in Hr, Hs. congruence.
  - apply Nat.ltb_ge in Hlen. split; [|intros ?; lia].
    split; [|intros ?; lia]. intros [code Hcode]. exfalso. rewrite Hcode in H.
    destruct (fs_fault w _); [destruct H; discriminate|].
    destruct H as (evs & _ & H).
    destruct (csv_rows w _); [|destruct H; discriminate].
    destruct H as (processes & Htasks & Hr & _).
    symmetry in Hr. now apply (first_raised_never_exits _ _ _ _ _ Htasks) in Hr.
Qed.

(** X10.  Given at most two arguments, a backup root that can be made and
    an inventory that can be read, [main] submits every row of the
    inventory once, in order, and ends as the first task that raised did:
    it returns exactly when the session of every row returned. *)
Theorem main_runs_every_row w args s rows :
  trace s = [] ->
  length args <= 2 ->
  fs_fault w (Makedirs (chosen_backup_dir args s)) = None ->
  csv_rows w (chosen_device_file args s) = Reply rows ->
  let r := (main args w s).1 in
  let tr := trace (main args w s).2 in
  let timestamp := strftime (clock w) timestamp_format in
  let config_commands := baseline (probe_ok w) in
  exists processes,
    Forall2 (task_of w timestamp config_commands) rows processes
    /\ r = first_raised processes
    /\ (r = Ok tt <-> Forall (fun process => process = Ok tt) processes)
    /\ List.filter is_submit_event tr
       = map (fun d => ESubmit d timestamp config_commands) rows.
Proof.
  intros Ht Hlen Hroot Hrows.
  pose proof (main_outcome w args s) as H. unfold post in H. cbv zeta in H.
  apply Nat.ltb_ge in Hlen. rewrite Hlen, Hroot, Hrows, Ht in H.
  destruct H as (evs & Htr & processes & Htasks & Hr & Hsub).
  cbv zeta. exists processes. rewrite Htr, Hr.
  repeat split; try assumption; apply first_raised_ok.
Qed.

Lemma main_runs_every_row_witness :
  let w := Lab.calm in
  let s := initial ∅ ∅ in
  (trace s = [] /\ length (@nil string) <= 2
   /\ fs_fault w (Makedirs (chosen_backup_dir [] s)) = None
   /\ csv_rows w (chosen_device_file [] s) = Reply Lab.inventory)
  /\ exists processes,
       Forall2 (task_of w (strftime (clock w) timestamp_format) (baseline (probe_ok w)))
         Lab.inventory processes
       /\ (main [] w s).1 = first_raised processes.
Proof.
  split; [repeat split; first [reflexivity | simpl; lia]|].
  destruct (main_runs_every_row Lab.calm [] (initial ∅ ∅) Lab.inventory eq_refl
              ltac:(simpl; lia) eq_refl eq_refl) as (processes & Htasks & Hr & _).
  exists processes. split; assumption.
Defined.

(** X11.  When the backup root cannot be made, [main] raises what
    [os.makedirs] raised, having set up logging and attempted nothing
    else: no server is probed.  When the inventory cannot be read, [main]
    raises what the reader raised: the pool is never opened and no device
    is submitted or contacted. *)
Theorem main_stops_before_the_pool w args s :
  trace s = [] ->
  length args <= 2 ->
  let r := (main args w s).1 in
  let tr := trace (main args w s).2 in
  let root := chosen_backup_dir args s in
  (forall e, fs_fault w (Makedirs root) = Some e ->
     r = Raise (Exception e) /\ tr = [ELogging "test.log"; EMakedirs root])
  /\ (forall e, fs_fault w (Makedirs root) = None ->
      csv_rows w (chosen_device_file args s) = Fails e ->
      r = Raise (Exception e)
      /\ forallb (fun e => negb (is_session_event e) && negb (is_pool_event e)) tr = true).
Proof.
  intros Ht Hlen.
  pose proof (main_outcome w args s) as H. unfold post in H. cbv zeta in H.
  apply Nat.ltb_ge in Hlen. rewrite Hlen, Ht in H. cbv zeta. split.
  - intros e He. rewrite He in H. exact H.
  - intros e Hroot He. rewrite Hroot, He in H.
    destruct H as (evs & Htr & Hr & Hquiet). now rewrite Htr.
Qed.

Lemma main_stops_before_the_pool_witness :
  let w := Lab.world Lab.fleet Lab.parses_version Cases.no_backup_root Lab.answers_all in
  let s := initial ∅ ∅ in
  (trace s = [] /\ length (@nil string) <= 2
   /\ fs_fault w (Makedirs (chosen_backup_dir [] s)) = Some (OSError "PermissionError"))
  /\ trace (main [] w s).2 = [ELogging "test.log"; EMakedirs "backups"].
Proof.
  split; [repeat split; first [reflexivity | simpl; lia]|].
  exact (proj2 (proj1 (main_stops_before_the_pool
                         (Lab.world Lab.fleet Lab.parses_version Cases.no_backup_root
                            Lab.answers_all)
                         [] (initial ∅ ∅) eq_refl ltac:(simpl; lia))
                  (OSError "PermissionError") eq_refl)).
Defined.

(** ** The pool, again *)

(** X12.  The pool is opened with four workers and is always terminated,
    also when a result raises; in between, every device is submitted, in
    the order of the inventory, before the first result is asked for. *)
Theorem pool_submits_then_gets w devices ts cfg s :
  exists submits gets,
    trace (run_pool devices ts cfg w s).2
    = trace s ++ EPoolOpen 4 :: submits ++ gets ++ [EPoolTerminate]
    /\ forallb (fun e => negb (is_get_event e)) submits = true
    /\ List.filter is_submit_event submits = map (fun d => ESubmit d ts cfg) devices
    /\ forallb is_get_event gets = true.
Proof.
  change (post (run_pool devices ts cfg) w s (fun _ s' =>
    exists submits gets,
      trace s' = trace s ++ EPoolOpen 4 :: submits ++ gets ++ [EPoolTerminate]
      /\ forallb (fun e => negb (is_get_event e)) submits = true
      /\ List.filter is_submit_event submits = map (fun d => ESubmit d ts cfg) devices
      /\ forallb is_get_event gets = true)).
  unfold run_pool, with_pool. apply post_bind. apply post_emit. cbv beta iota.
  apply post_finally. apply post_bind.
  eapply post_weaken; [apply (submit_loop w ts cfg devices [])|].
  intros r s1 (processes & submits & -> & _ & Hs1 & _ & Hget1 & Hsub1 & _).
  cbn [app add_event trace] in Hs1 |- *.
  eapply post_weaken; [apply get_loop|].
  intros r s2 [_ (gets & Hs2 & Hget2 & _)].
  exists submits, gets. cbn [add_event trace].
  rewrite Hs2, Hs1, <- !app_assoc. repeat split; assumption.
Qed.

(** ** The backup directory *)

(** X13.  When [os.mkdir] goes through, asking twice for the backup path of
    a device makes its directory once at most, and not at all if something
    of that name is already there; both calls return their path. *)
Theorem backup_directory_made_once w s hostname ts1 ts2 :
  trace s = [] ->
  fs_fault w (Mkdir (os_path_join (BACKUP_DIR_PATH s) [hostname])) = None ->
  let directory := os_path_join (BACKUP_DIR_PATH s) [hostname] in
  let run := (get_backup_file_path hostname ts1 ;;
              get_backup_file_path hostname ts2) w s in
  run.1 = Ok (os_path_join (BACKUP_DIR_PATH s) [hostname; backup_file_name hostname ts2])
  /\ count is_mkdir_event (trace run.2) <= 1
  /\ (directory ∈ dirs s \/ is_Some (files s !! directory) ->
      count is_mkdir_event (trace run.2) = 0)
  /\ (directory ∈ dirs run.2 \/ is_Some (files s !! directory))
  /\ files run.2 = files s.
Proof.
  intros Ht Hfault directory run. subst run directory. empty_trace s Ht.
  cbn beta iota delta [BACKUP_DIR_PATH dirs files] in *.
  set (dir := os_path_join BACKUP_DIR_PATH0 [hostname]) in *.
  change (post (get_backup_file_path hostname ts1 ;; get_backup_file_path hostname ts2) w
            {| trace := []; dirs := dirs0; files := files0;
               DEVICE_FILE_PATH := DEVICE_FILE_PATH0; BACKUP_DIR_PATH := BACKUP_DIR_PATH0 |}
            (fun r s' =>
               r = Ok (os_path_join BACKUP_DIR_PATH0
                         [hostname; backup_file_name hostname ts2])
               /\ count is_mkdir_event (trace s') <= 1
               /\ (dir ∈ dirs0 \/ is_Some (files0 !! dir) ->
                   count is_mkdir_event (trace s') = 0)
               /\ (dir ∈ dirs s' \/ is_Some (files0 !! dir))
               /\ files s' = files0)).
  subst dir.
  run; flip_negb.
  all: try congruence.
  all: repeat match goal with
         | H : _ || _ = false |- _ => apply orb_false_iff in H as [? ?]
         | H : _ || _ = true |- _ => apply orb_true_iff in H as [?|?]
         | H : bool_decide _ = false |- _ => apply bool_decide_eq_false in H
         | H : bool_decide _ = true |- _ => apply bool_decide_eq_true in H
         end.
  all: try (exfalso; set_solver).
  all: cbv [count List.filter is_mkdir_event app length].
  all: repeat split; try reflexivity; try lia; try tauto; try set_solver.
Qed.

Lemma backup_directory_made_once_witness :
  let run := (get_backup_file_path "r1" "2024_01_01-00_00_00" ;;
              get_backup_file_path "r1" "2024_01_02-00_00_00") Lab.calm Lab.fresh in
  (trace Lab.fresh = []
   /\ fs_fault Lab.calm (Mkdir (os_path_join (BACKUP_DIR_PATH Lab.fresh) ["r1"])) = None)
  /\ run.1 = Ok "backups/r1/r1-2024_01_02-00_00_00.txt".
Proof.
  split; [repeat split|].
  exact (proj1 (backup_directory_made_once Lab.calm Lab.fresh "r1" "2024_01_01-00_00_00"
                  "2024_01_02-00_00_00" eq_refl eq_refl)).
Defined.

(** ** The probes of a run *)

Lemma probe_sends w host s :
  socket_fault w = None -> settimeout_fault w = None ->
  post (check_ntp_server host) w s (fun r s' =>
    (exists reachable, r = Ok reachable)
    /\ exists evs, trace s' = trace s ++ evs
                   /\ List.filter is_sendto_event evs = [ESendto host 123 ntp_request]).
Proof.
  intros Hsocket Htimeout.
  run; try congruence.
  all: split; [eexists; reflexivity|].
  all: eexists; split; [rewrite <- ?app_assoc; reflexivity | reflexivity].
Qed.

Lemma ntp_loop_sends w servers :
  socket_fault w = None -> settimeout_fault w = None ->
  forall config_commands s,
  post (for_fold servers config_commands add_ntp_server) w s (fun r s' =>
    (exists config_commands', r = Ok config_commands')
    /\ exists evs, trace s' = trace s ++ evs
                   /\ List.filter is_sendto_event evs
                      = map (fun host => ESendto host 123 ntp_request) servers).
Proof.
  intros Hsocket Htimeout.
  induction servers as [|server servers IH]; intros config_commands s.
  - cbn [for_fold map]. apply post_ret. split; [now eexists|].
    exists []. now rewrite app_nil_r.
  - cbn [for_fold]. apply post_bind. unfold add_ntp_server. apply post_bind.
    eapply post_weaken; [now apply probe_sends|].
    intros r s1 [[reachable ->] (evs1 & Hs1 & Hevs1)]. cbv beta iota.
    apply post_ret. eapply post_weaken; [apply IH|].
    intros r s2 [Hr (evs2 & Hs2 & Hevs2)]. split; [exact Hr|].
    exists (evs1 ++ evs2). rewrite Hs2, Hs1, <- app_assoc. split; [reflexivity|].
    rewrite List.filter_app, Hevs1, Hevs2. reflexivity.
Qed.

Lemma late_not_sendto (l : list event) :
  forallb is_late_event l = true -> List.filter is_sendto_event l = [].
Proof.
  induction l as [|e l IH]; [reflexivity|]. cbn [forallb List.filter].
  intros [He Hl]%andb_true_iff. rewrite (IH Hl). now destruct e.
Qed.

(** X14.  When sockets can be created and given a timeout, a run of [main]
    that gets past its arguments and the making of the backup root sends
    one request to each of the four servers, in the order of
    [NTP_SERVERS], and sends nothing else: the same 48 bytes, to port 123,
    whether or not the server before answered. *)
Theorem main_probes_each_server_once w args s :
  trace s = [] ->
  length args <= 2 ->
  fs_fault w (Makedirs (chosen_backup_dir args s)) = None ->
  socket_fault w = None -> settimeout_fault w = None ->
  List.filter is_sendto_event (trace (main args w s).2)
  = map (fun host => ESendto host 123 ntp_request) NTP_SERVERS.
Proof.
  intros Ht Hlen Hroot Hsocket Htimeout. empty_trace s Ht.
  cbn [chosen_backup_dir BACKUP_DIR_PATH] in Hroot.
  match goal with
  | |- List.filter _ (trace (main args w ?s0).2) = ?sent =>
      change (post (main args) w s0 (fun _ s' =>
                List.filter is_sendto_event (trace s') = sent))
  end.
  apply Nat.ltb_ge in Hlen.
  run.
  all: cbn [chosen_backup_dir BACKUP_DIR_PATH] in Hroot.
  all: try congruence.
  all: try (destruct l0; discriminate).
  all: (eapply post_weaken; [now apply ntp_loop_sends|]);
    intros ? s2 [[config_commands ->] (evs & Hs2 & Hevs)];
    cbv beta iota; cbn [app] in Hs2.
  all: run.
  all: try (rewrite Hs2, ?List.filter_app, Hevs; reflexivity).
  all: unfold post at 1; rewrite rows_loop; cbn [fst snd app].
  all: run.
  all: (eapply post_weaken; [apply pool_run|]);
    intros r s3 (processes & pool & _ & _ & Hs3 & Hlate & _);
    cbn [add_event trace] in Hs3.
  all: rewrite Hs3, Hs2, ?List.filter_app, Hevs, (late_not_sendto _ Hlate); reflexivity.
Qed.

Lemma main_probes_each_server_once_witness :
  let w := Lab.world Lab.fleet Lab.parses_version Lab.no_fault Lab.answers_none in
  let s := initial ∅ ∅ in
  (trace s = [] /\ length (@nil string) <= 2
   /\ fs_fault w (Makedirs (chosen_backup_dir [] s)) = None
   /\ socket_fault w = None /\ settimeout_fault w = None)
  /\ List.filter is_sendto_event (trace (main [] w s).2)
     = map (fun host => ESendto host 123 ntp_request) NTP_SERVERS.
Proof.
  split; [repeat split; first [reflexivity | simpl; lia]|].
  exact (main_probes_each_server_once
           (Lab.world Lab.fleet Lab.parses_version Lab.no_fault Lab.answers_none)
           [] (initial ∅ ∅) eq_refl ltac:(simpl; lia) eq_refl eq_refl eq_refl).
Defined.

(** ** The baseline of a run *)

Lemma probe_setup w host s :
  post (check_ntp_server host) w s (fun r s' =>
    (exists reachable, r = Ok reachable)
    /\ exists evs, trace s' = trace s ++ evs
                   /\ List.filter is_setup_event evs = [ESocket]).
Proof.
  run.
  all: split; [eexists; reflexivity|].
  all: eexists; split; [rewrite <- ?app_assoc; reflexivity | reflexivity].
Qed.

Lemma ntp_loop_setup w servers : forall config_commands s,
  post (for_fold servers config_commands add_ntp_server) w s (fun r s' =>
    (exists config_commands', r = Ok config_commands')
    /\ exists evs, trace s' = trace s ++ evs
                   /\ List.filter is_setup_event evs = map (fun _ => ESocket) servers).
Proof.
  induction servers as [|server servers IH]; intros config_commands s.
  - cbn [for_fold map]. apply post_ret. split; [now eexists|].
    exists []. now rewrite app_nil_r.
  - cbn [for_fold]. apply post_bind. unfold add_ntp_server. apply post_bind.
    eapply post_weaken; [apply probe_setup|].
    intros r s1 [[reachable ->] (evs1 & Hs1 & Hevs1)]. cbv beta iota.
    apply post_ret. eapply post_weaken; [apply IH|].
    intros r s2 [Hr (evs2 & Hs2 & Hevs2)]. split; [exact Hr|].
    exists (evs1 ++ evs2). rewrite Hs2, Hs1, <- app_assoc. split; [reflexivity|].
    rewrite List.filter_app, Hevs1, Hevs2. reflexivity.
Qed.

Lemma late_not_setup (l : list event) :
  forallb is_late_event l = true -> List.filter is_setup_event l = [].
Proof.
  induction l as [|e l IH]; [reflexivity|]. cbn [forallb List.filter].
  intros [He Hl]%andb_true_iff. rewrite (IH Hl). now destruct e.
Qed.

(** Once [main] is past its arguments and the backup root, it starts one
    probe for each server and then reads the clock, once. *)
Lemma main_setup w args s :
  trace s = [] ->
  length args <= 2 ->
  fs_fault w (Makedirs (chosen_backup_dir args s)) = None ->
  List.filter is_setup_event (trace (main args w s).2)
  = map (fun _ => ESocket) NTP_SERVERS ++ [ENow].
Proof.
  intros Ht Hlen Hroot. empty_trace s Ht.
  match goal with
  | |- List.filter _ (trace (main args w ?s0).2) = ?setup =>
      change (post (main args) w s0 (fun _ s' =>
                List.filter is_setup_event (trace s') = setup))
  end.
  apply Nat.ltb_ge in Hlen.
  run.
  all: cbn [chosen_backup_dir BACKUP_DIR_PATH] in Hroot.
  all: try congruence.
  all: try (destruct l0; discriminate).
  all: (eapply post_weaken; [apply ntp_loop_setup|]);
    intros ? s2 [[config_commands ->] (evs & Hs2 & Hevs)];
    cbv beta iota; cbn [app] in Hs2.
  all: run.
  all: try (rewrite Hs2, ?List.filter_app, Hevs; reflexivity).
  all: unfold post at 1; rewrite rows_loop; cbn [fst snd app].
  all: run.
  all: (eapply post_weaken; [apply pool_run|]);
    intros r s3 (processes & pool & _ & _ & Hs3 & Hlate & _);
    cbn [add_event trace] in Hs3.
  all: rewrite Hs3, Hs2, ?List.filter_app, Hevs, (late_not_setup _ Hlate); reflexivity.
Qed.

Lemma submissions_inj ts cfg (l1 l2 : list device) :
  map (fun d => ESubmit d ts cfg) l1 = map (fun d => ESubmit d ts cfg) l2 -> l1 = l2.
Proof.
  revert l2. induction l1 as [|d1 l1 IH]; intros [|d2 l2]; cbn [map]; try discriminate.
  - reflexivity.
  - intros [= -> H]. now rewrite (IH _ H).
Qed.

(** C8.  The commands of a run are the timezone directive followed by one
    [ntp server] line for each candidate whose probe returned [True], in
    the order of [NTP_SERVERS]; they depend on the outcomes of the probes
    only.  The trace of [main] falls into two parts: nothing that starts or
    carries out a device session is in the first, and no probe and no
    reading of the clock is in the second.  When [main] gets past its
    arguments and the backup root, the first part holds the start of one
    probe for each candidate followed by one reading of the clock, so the
    commands are built once; and when the inventory can be read, the
    devices submitted are its rows, in order, every one with these commands
    and the timestamp of that reading, the task of each being
    [process_target] on them.  Every push of the run pushes these
    commands. *)
Theorem baseline_built_once_before_sessions w args s :
  trace s = [] ->
  let tr := trace (main args w s).2 in
  let timestamp := strftime (clock w) timestamp_format in
  let config_commands := baseline (probe_ok w) in
  (exists pre pool devices,
     tr = pre ++ pool
     /\ forallb is_early_event pre = true
     /\ forallb is_late_event pool = true
     /\ List.filter is_submit_event tr
        = map (fun d => ESubmit d timestamp config_commands) devices
     /\ (length args <= 2 -> fs_fault w (Makedirs (chosen_backup_dir args s)) = None ->
         List.filter is_setup_event pre = map (fun _ => ESocket) NTP_SERVERS ++ [ENow]
         /\ forall rows, csv_rows w (chosen_device_file args s) = Reply rows ->
              devices = rows
              /\ exists processes,
                   Forall2 (task_of w timestamp config_commands) rows processes
                   /\ (main args w s).1 = first_raised processes))
  /\ Forall (pushes config_commands) tr
  /\ config_commands
     = "clock timezone GMT 0 0"
       :: map (fun addr => "ntp server " +:+ addr) (List.filter (probe_ok w) NTP_SERVERS)
  /\ (forall host s0, (check_ntp_server host w s0).1 = Ok (probe_ok w host))
  /\ (forall w', (forall host, In host NTP_SERVERS -> probe_ok w' host = probe_ok w host) ->
       baseline (probe_ok w') = config_commands).
Proof.
  intros Ht tr timestamp config_commands.
  destruct (main_run w args s Ht) as (pre & pool & devices & Htr & Hpre & _ & Hpool & Hsub & Hpush).
  fold tr in Htr.
  assert (Hsubmitted : List.filter is_submit_event tr
                       = map (fun d => ESubmit d timestamp config_commands) devices)
    by (rewrite Htr, List.filter_app, (early_not_submit pre Hpre); exact Hsub).
  split; [|split; [|split; [|split]]].
  - exists pre, pool, devices.
    split; [exact Htr|]. split; [exact Hpre|]. split; [exact Hpool|].
    split; [exact Hsubmitted|].
    intros Hlen Hroot. split.
    + pose proof (main_setup w args s Ht Hlen Hroot) as Hsetup. fold tr in Hsetup.
      now rewrite Htr, List.filter_app, (late_not_setup pool Hpool), app_nil_r in Hsetup.
    + intros rows Hrows.
      pose proof (main_outcome w args s) as H. unfold post in H. cbv zeta in H.
      apply Nat.ltb_ge in Hlen. rewrite Hlen, Hroot, Hrows, Ht in H.
      destruct H as (evs & Hevs & processes & Htasks & Hr & Hrun).
      cbn [app] in Hevs. fold tr in Hevs. rewrite <- Hevs, Hsubmitted in Hrun.
      split; [exact (submissions_inj _ _ _ _ Hrun)|].
      exists processes. split; assumption.
  - rewrite Htr. apply Forall_app. split; [now apply early_pushes | exact Hpush].
  - reflexivity.
  - intros host s0. exact (proj1 (probe_adds w host s0)).
  - intros w' Hsame. unfold config_commands, baseline. do 2 f_equal.
    clear -Hsame. induction NTP_SERVERS as [|server servers IH]; [reflexivity|].
    cbn [List.filter]. rewrite (Hsame server) by now left.
    rewrite IH; [reflexivity|]. intros host Hin. apply Hsame. now right.
Qed.

Lemma baseline_built_once_before_sessions_witness :
  let w := Lab.world Lab.fleet Lab.parses_version Lab.no_fault Lab.answers_some in
  let s := initial ∅ ∅ in
  let tr := trace (main [] w s).2 in
  let config_commands :=
    ["clock timezone GMT 0 0"; "ntp server 78.36.18.184"; "ntp server 192.36.143.130"] in
  (trace s = [] /\ length (@nil string) <= 2
   /\ fs_fault w (Makedirs (chosen_backup_dir [] s)) = None
   /\ csv_rows w (chosen_device_file [] s) = Reply Lab.inventory)
  /\ List.filter is_submit_event tr
     = map (fun d => ESubmit d "2020_04_27-09_05_00" config_commands) Lab.inventory
  /\ Forall (pushes config_commands) tr.
Proof.
  split; [repeat split; first [reflexivity | simpl; lia]|].
  destruct (baseline_built_once_before_sessions
              (Lab.world Lab.fleet Lab.parses_version Lab.no_fault Lab.answers_some)
              [] (initial ∅ ∅) eq_refl)
    as [(pre & pool & devices & _ & _ & _ & Hsubmitted & Hpast) [Hpushes _]].
  destruct (Hpast ltac:(simpl; lia) eq_refl) as [_ Hrows].
  destruct (Hrows Lab.inventory eq_refl) as [-> _].
  split; [exact Hsubmitted | exact Hpushes].
Defined.

(** ** A device that refuses the connection *)

(** X15.  When the row has its five keys and [ConnectHandler] raises, the
    session raises the same exception and has done nothing but try to
    connect: nothing is printed, no directory is made, no file is written,
    and no command is sent to the device. *)
Theorem refused_connection_changes_nothing w d ts cfg s ip username password device_type secret e :
  d !! "ip" = Some ip -> d !! "username" = Some username ->
  d !! "password" = Some password -> d !! "device_type" = Some device_type ->
  d !! "secret" = Some secret ->
  on_connect (device_at w ip) username password device_type secret = Some e ->
  process_target d ts cfg w s = (Raise e, add_event (EConnect ip) s).
Proof.
  intros Hip Huser Hpass Htype Hsecret Hrefused.
  enough (H : post (process_target d ts cfg) w s (fun r s' =>
                r = Raise (Exception e) /\ s' = add_event (EConnect ip) s)).
  { unfold post in H. destruct (process_target d ts cfg w s) as [r s'].
    cbn [fst snd] in H. destruct H as [-> ->]. reflexivity. }
  run; simplify_eq; try congruence.
  all: split; reflexivity.
Qed.

Lemma refused_connection_changes_nothing_witness :
  let w := Lab.world Lab.fleet_one_down Lab.parses_version Lab.no_fault Lab.answers_all in
  let d := Lab.mk_device "10.0.0.2" in
  (d !! "ip" = Some "10.0.0.2" /\ d !! "username" = Some "admin"
   /\ d !! "password" = Some "cisco" /\ d !! "device_type" = Some "cisco_ios"
   /\ d !! "secret" = Some "class"
   /\ on_connect (device_at w "10.0.0.2") "admin" "cisco" "cisco_ios" "class"
      = Some (NetmikoException "NetmikoTimeoutException"))
  /\ process_target d Lab.timestamp [] w Lab.fresh
     = (Raise (NetmikoException "NetmikoTimeoutException"),
        add_event (EConnect "10.0.0.2") Lab.fresh).
Proof.
  split; [repeat split; reflexivity|].
  exact (refused_connection_changes_nothing
           (Lab.world Lab.fleet_one_down Lab.parses_version Lab.no_fault Lab.answers_all)
           (Lab.mk_device "10.0.0.2") Lab.timestamp [] Lab.fresh
           "10.0.0.2" "admin" "cisco" "cisco_ios" "class"
           (NetmikoException "NetmikoTimeoutException")
           eq_refl eq_refl eq_refl eq_refl eq_refl eq_refl).
Defined.

(** ** Timestamps of different runs *)

(** X16.  The timestamp tells the second of the run: two runs whose clocks
    hold valid dates and that get the same timestamp from
    [get_current_date_and_time] were started in the same second of the
    same day.  Backups of one device taken in different seconds therefore
    carry different timestamps in their names. *)
Theorem same_timestamp_same_second w1 w2 s1 s2 :
  valid_datetime (clock w1) -> valid_datetime (clock w2) ->
  (get_current_date_and_time w1 s1).1 = (get_current_date_and_time w2 s2).1 ->
  clock w1 = clock w2.
Proof.
  intros (Hy1 & Hm1 & Hd1 & HH1 & HM1 & HS1) (Hy2 & Hm2 & Hd2 & HH2 & HM2 & HS2) Hsame.
  change ((Ok (strftime (clock w1) timestamp_format) : result string)
          = Ok (strftime (clock w2) timestamp_format)) in Hsame.
  injection Hsame as Y3 Y2 Y1 Y0 Mo1 Mo0 D1 D0 H1 H0 Mi1 Mi0 S1 S0.
  assert (Hyear : year (clock w1) = year (clock w2)).
  { rewrite <- (read_zero_pad4 (year (clock w1))), <- (read_zero_pad4 (year (clock w2))) by lia.
    unfold zero_pad4, zero_pad2. now rewrite Y3, Y2, Y1, Y0. }
  assert (Hmonth : month (clock w1) = month (clock w2)).
  { rewrite <- (read_zero_pad2 (month (clock w1))), <- (read_zero_pad2 (month (clock w2))) by lia.
    unfold zero_pad2. now rewrite Mo1, Mo0. }
  assert (Hday : day (clock w1) = day (clock w2)).
  { rewrite <- (read_zero_pad2 (day (clock w1))), <- (read_zero_pad2 (day (clock w2))) by lia.
    unfold zero_pad2. now rewrite D1, D0. }
  assert (Hhour : hour (clock w1) = hour (clock w2)).
  { rewrite <- (read_zero_pad2 (hour (clock w1))), <- (read_zero_pad2 (hour (clock w2))) by lia.
    unfold zero_pad2. now rewrite H1, H0. }
  assert (Hminute : minute (clock w1) = minute (clock w2)).
  { rewrite <- (read_zero_pad2 (minute (clock w1))), <- (read_zero_pad2 (minute (clock w2))) by lia.
    unfold zero_pad2. now rewrite Mi1, Mi0. }
  assert (Hsecond : second (clock w1) = second (clock w2)).
  { rewrite <- (read_zero_pad2 (second (clock w1))), <- (read_zero_pad2 (second (clock w2))) by lia.
    unfold zero_pad2. now rewrite S1, S0. }
  destruct (clock w1), (clock w2). cbn [year month day hour minute second] in *.
  congruence.
Qed.

Lemma same_timestamp_same_second_witness :
  let w1 := Lab.calm in
  let w2 := Lab.world Lab.fleet_one_down Lab.parses_nothing Lab.no_fault Lab.answers_none in
  (valid_datetime (clock w1) /\ valid_datetime (clock w2)
   /\ (get_current_date_and_time w1 Lab.fresh).1
      = (get_current_date_and_time w2 (initial ∅ ∅)).1)
  /\ clock w1 = clock w2.
Proof.
  assert (Hvalid : valid_datetime (clock Lab.calm)) by (cbv; repeat split; discriminate).
  split; [repeat split; first [reflexivity | apply Hvalid]|].
  exact (same_timestamp_same_second Lab.calm
           (Lab.world Lab.fleet_one_down Lab.parses_nothing Lab.no_fault Lab.answers_none)
           Lab.fresh (initial ∅ ∅) Hvalid Hvalid eq_refl).
Defined.
